(** * streamlit_first: the data pipeline of [app.py]

  [app.py] builds one table of 100 synthetic daily observations
  ([generate_data]), then derives three grouped summaries from it
  ([region_sales], [category_avg], [heatmap_data]) which are handed to
  the chart libraries.  This development embeds that pipeline and proves
  the properties the specification states about it.

  Conventions of the embedding.
  - [float64] values are idealised as real numbers ([R]): rounding is
    not modelled there, so an equation between floats is an equation
    between the exact values the floats approximate.  Where rounding
    decides a property (the sums of the [sales] column), the column is
    evaluated a second time in binary64 itself, on numpy's own generator
    (the part on binary64 below).
  - [int64] values are [Z]; none of the integers of this program comes
    near the 64-bit range.
  - A pandas [Timestamp] is its count of nanoseconds since 1970-01-01.
  - The library calls ([numpy], [pandas], [streamlit]) are modelled by
    their documented behaviour on the arguments this program passes;
    a call that raises in Python returns [Raise] here. *)

From Stdlib Require Import Floats.
From Stdlib Require Import ZArith List String Ascii Bool Arith Lia.
From Stdlib Require Import Reals Lra Permutation DecimalString.
Import ListNotations.

Set Implicit Arguments.

(* ================================================================== *)
(** ** Calendar arithmetic behind [Timestamp] *)

Module Calendar.
Local Open Scope Z_scope.

Definition ns_per_day : Z := 86400 * 1000000000.

(** Days since 1970-01-01 of the proleptic Gregorian date [y-m-d]. *)
Definition days_from_civil (y m d : Z) : Z :=
  let y' := if m <=? 2 then y - 1 else y in
  let era := y' / 400 in
  let yoe := y' - era * 400 in
  let mp := (m + 9) mod 12 in
  let doy := (153 * mp + 2) / 5 + d - 1 in
  let doe := yoe * 365 + yoe / 4 - yoe / 100 + doy in
  era * 146097 + doe - 719468.

(** The inverse: year, month and day of a day count. *)
Definition civil_from_days (z : Z) : Z * Z * Z :=
  let z' := z + 719468 in
  let era := z' / 146097 in
  let doe := z' - era * 146097 in
  let yoe := (doe - doe / 1460 + doe / 36524 - doe / 146096) / 365 in
  let doy := doe - (365 * yoe + yoe / 4 - yoe / 100) in
  let mp := (5 * doy + 2) / 153 in
  let d := doy - (153 * mp + 2) / 5 + 1 in
  let m := if mp <? 10 then mp + 3 else mp - 9 in
  let y := yoe + era * 400 in
  (if m <=? 2 then y + 1 else y, m, d).

Definition is_leap (y : Z) : bool :=
  ((y mod 4 =? 0) && negb (y mod 100 =? 0)) || (y mod 400 =? 0).

Definition days_in_month (y m : Z) : Z :=
  if m =? 2 then (if is_leap y then 29 else 28)
  else if (m =? 4) || (m =? 6) || (m =? 9) || (m =? 11) then 30
  else 31.

(** The calendar day that follows [y-m-d]. *)
Definition next_day (ymd : Z * Z * Z) : Z * Z * Z :=
  let '(y, m, d) := ymd in
  if d <? days_in_month y m then (y, m, d + 1)
  else if m <? 12 then (y, m + 1, 1)
  else (y + 1, 1, 1).

Definition ymd_eqb (a b : Z * Z * Z) : bool :=
  let '(y, m, d) := a in
  let '(y', m', d') := b in
  (y =? y') && (m =? m') && (d =? d').
End Calendar.

(* ================================================================== *)
(** ** Python results *)

Inductive exn : Type :=
| ValueError
| KeyError
| TypeError
| AttributeError
| OverflowError.

Inductive result (A : Type) : Type :=
| Ok (a : A)
| Raise (e : exn).

Arguments Ok {A} a.
Arguments Raise {A} e.

Definition rbind {A B : Type} (r : result A) (k : A -> result B) : result B :=
  match r with
  | Ok a => k a
  | Raise e => Raise e
  end.

(* ================================================================== *)
(** ** Timestamps: parsing and formatting *)

Module Timestamp.
Local Open Scope string_scope.
Local Open Scope Z_scope.

(** [Timestamp.value]: nanoseconds since the Unix epoch. *)
Definition t : Type := Z.

Definition ymd (ts : t) : Z * Z * Z :=
  Calendar.civil_from_days (ts / Calendar.ns_per_day).

Definition year (ts : t) : Z := fst (fst (ymd ts)).
Definition month (ts : t) : Z := snd (fst (ymd ts)).
Definition day (ts : t) : Z := snd (ymd ts).

Definition digit_of (c : ascii) : option Z :=
  let n := Z.of_N (N_of_ascii c) in
  if (48 <=? n) && (n <=? 57) then Some (n - 48) else None.

Fixpoint number_of (s : string) (acc : Z) : option Z :=
  match s with
  | EmptyString => Some acc
  | String c rest =>
      match digit_of c with
      | Some d => number_of rest (10 * acc + d)
      | None => None
      end
  end.

(** [pd.Timestamp('YYYY-MM-DD')]: midnight of that day. *)
Definition parse (s : string) : result t :=
  if negb (Nat.eqb (String.length s) 10) then Raise ValueError
  else if negb (String.eqb (substring 4 1 s) "-") then Raise ValueError
  else if negb (String.eqb (substring 7 1 s) "-") then Raise ValueError
  else
    match number_of (substring 0 4 s) 0,
          number_of (substring 5 2 s) 0,
          number_of (substring 8 2 s) 0 with
    | Some y, Some m, Some d =>
        if (1 <=? m) && (m <=? 12) && (1 <=? d)
           && (d <=? Calendar.days_in_month y m)
        then Ok (Calendar.days_from_civil y m d * Calendar.ns_per_day)
        else Raise ValueError
    | _, _, _ => Raise ValueError
    end.

Fixpoint zeros (n : nat) : string :=
  match n with
  | O => ""
  | S n' => String "0" (zeros n')
  end.

(** Decimal digits of a non-negative number, zero-padded on the left
    to [width] characters. *)
Definition zero_padded (width : nat) (n : Z) : string :=
  let digits := NilZero.string_of_uint (N.to_uint (Z.to_N n)) in
  (zeros (width - String.length digits) ++ digits)%string.

(** [strftime]: the directives [%Y], [%m], [%d] and [%%]; every other
    character is copied. *)
Fixpoint strftime (fmt : string) (ts : t) : string :=
  match fmt with
  | EmptyString => ""
  | String c rest =>
      if Ascii.eqb c "%" then
        match rest with
        | EmptyString => "%"
        | String d rest' =>
            ((if Ascii.eqb d "Y" then zero_padded 4 (year ts)
             else if Ascii.eqb d "m" then zero_padded 2 (month ts)
             else if Ascii.eqb d "d" then zero_padded 2 (day ts)
             else if Ascii.eqb d "%" then "%"
             else String c (String d ""))
            ++ strftime rest' ts)%string
        end
      else String c (strftime rest ts)
  end.
End Timestamp.

(* ================================================================== *)
(** ** The random stream behind [np.random]

    [np.random] owns one global generator.  Its algorithm is numpy's and
    no part of this repository: the embedding takes it as an interface,
    one scalar draw at a time, and threads its state through the calls
    in the order the program makes them. *)

Class RandomState : Type := {
  rng_state : Type;
  (** the state [np.random.seed(n)] installs *)
  rng_seed : Z -> rng_state;
  (** one integer of [randint(low, high)] *)
  rng_randint : Z -> Z -> rng_state -> Z * rng_state;
  (** one float of [random_sample()] *)
  rng_random_sample : rng_state -> R * rng_state }.

(** What numpy documents of the two draws: [randint] is in the half-open
    range [[low, high)], [random_sample] in [[0, 1)]. *)
Record RandomStateLaws (RS : RandomState) : Prop := {
  randint_in_range : forall low high s,
    (low < high)%Z -> (low <= fst (rng_randint low high s) < high)%Z;
  random_sample_in_range : forall s,
    (0 <= fst (rng_random_sample s) < 1)%R }.

(** A linear congruential generator: a concrete stream to run the
    pipeline on. *)
Definition lcg_step (s : Z) : Z := ((1103515245 * s + 12345) mod 2147483648)%Z.

Definition lcg : RandomState := {|
  rng_state := Z;
  rng_seed := fun n => (n mod 2147483648)%Z;
  rng_randint := fun low high s =>
    ((low + lcg_step s mod (high - low))%Z, lcg_step s);
  rng_random_sample := fun s =>
    ((IZR (lcg_step s mod 1000) / 1000)%R, lcg_step s) |}.

(** The generator state a process of that stream starts in. *)
Definition lcg_start : @rng_state lcg := 0%Z.

(** numpy's own stream: [np.random] is a Mersenne Twister (MT19937), as
    [numpy/random/src/mt19937] and [distributions.c] write it.  Words are
    [uint32]; the state is the 624 words of the key and the position of
    the next one. *)
Module MT19937.
Local Open Scope Z_scope.

Record state : Type := { key : list Z; pos : nat }.

Definition uint32 (x : Z) : Z := Z.land x 0xffffffff.

Fixpoint init_key (n : nat) (i : Z) (seed : Z) : list Z :=
  match n with
  | O => []
  | S n' =>
      seed :: init_key n' (i + 1)
                (uint32 (1812433253 * Z.lxor seed (Z.shiftr seed 30) + i + 1))
  end.

(** [mt19937_seed], what [np.random.seed(n)] runs for an integer [n]. *)
Definition mt19937_seed (seed : Z) : state :=
  {| key := init_key 624 0 (uint32 seed); pos := 624 |}.

Fixpoint upd (i : nat) (x : Z) (l : list Z) : list Z :=
  match l, i with
  | [], _ => []
  | _ :: l', O => x :: l'
  | y :: l', S i' => y :: upd i' x l'
  end.

(** One step of [mt19937_gen]: word [i] is replaced in place. *)
Definition twist (k : list Z) (i : nat) : list Z :=
  let y := Z.lor (Z.land (nth i k 0) 0x80000000)
                 (Z.land (nth ((i + 1) mod 624) k 0) 0x7fffffff) in
  upd i (Z.lxor (Z.lxor (nth ((i + 397) mod 624) k 0) (Z.shiftr y 1))
                (if Z.odd y then 0x9908b0df else 0)) k.

Definition mt19937_gen (s : state) : state :=
  {| key := fold_left twist (seq 0 624) (key s); pos := 0 |}.

(** [mt19937_next]: the next word, tempered. *)
Definition mt19937_next (s : state) : Z * state :=
  let s := if Nat.eqb (pos s) 624 then mt19937_gen s else s in
  let y := nth (pos s) (key s) 0 in
  let y := Z.lxor y (Z.shiftr y 11) in
  let y := Z.lxor y (Z.land (Z.shiftl y 7) 0x9d2c5680) in
  let y := Z.lxor y (Z.land (Z.shiftl y 15) 0xefc60000) in
  let y := Z.lxor y (Z.shiftr y 18) in
  (uint32 y, {| key := key s; pos := S (pos s) |}).

Definition mt19937_next64 (s : state) : Z * state :=
  let (hi, s1) := mt19937_next s in
  let (lo, s2) := mt19937_next s1 in
  (Z.lor (Z.shiftl hi 32) lo, s2).

(** [mt19937_next_double]: 53 random bits as a float in [[0, 1)]; the
    quotient is exact in binary64. *)
Definition mt19937_next_double (s : state) : R * state :=
  let (a, s1) := mt19937_next s in
  let (b, s2) := mt19937_next s1 in
  ((IZR (Z.shiftr a 5 * 67108864 + Z.shiftr b 6) / 9007199254740992)%R, s2).

(** The smallest mask of the form [2^k - 1] that covers [max]. *)
Definition gen_mask (max : Z) : Z := Z.ones (Z.log2 max + 1).

(** Masked rejection: words are drawn until one, masked, is at most
    [rng].  The loop of numpy has no bound; here it gives up after [fuel]
    further rejections and returns 0.  A word is accepted with probability
    above one half. *)
Fixpoint bounded_masked (fuel : nat) (next : state -> Z * state)
  (rng mask : Z) (s : state) : Z * state :=
  let (v, s') := next s in
  let val := Z.land v mask in
  if val <=? rng then (val, s')
  else match fuel with
       | O => (0, s')
       | S fuel' => bounded_masked fuel' next rng mask s'
       end.

(** One element of [random_bounded_uint64_fill] with [use_masked], which
    is how the legacy [randint] fills an [int64] array: [off] plus a draw
    in [[0, rng]]. *)
Definition random_bounded_uint64 (off rng : Z) (s : state) : Z * state :=
  if rng <=? 0 then (off, s)
  else if rng <? 0xffffffff then
    let (v, s') := bounded_masked 1024 mt19937_next rng (gen_mask rng) s in
    (off + v, s')
  else if rng =? 0xffffffff then
    let (v, s') := mt19937_next s in (off + v, s')
  else
    let (v, s') := bounded_masked 1024 mt19937_next64 rng (gen_mask rng) s in
    (off + v, s').
End MT19937.

(** [np.random.seed(n)] raises for [n] outside [[0, 2^32)]; the program
    passes 42. *)
Definition mt19937 : RandomState := {|
  rng_state := MT19937.state;
  rng_seed := MT19937.mt19937_seed;
  rng_randint := fun low high =>
    MT19937.random_bounded_uint64 low (high - 1 - low);
  rng_random_sample := MT19937.mt19937_next_double |}.

(** A state for a process of that stream to start in.  numpy seeds the
    global generator from the system's entropy; any state will do, since
    [generate_data] reseeds it. *)
Definition mt19937_start : @rng_state mt19937 := MT19937.mt19937_seed 0.

(* ================================================================== *)
(** ** Stateful computations that may raise *)

Definition M (S A : Type) : Type := S -> result A * S.

Definition ret {S A : Type} (a : A) : M S A := fun s => (Ok a, s).

Definition lift {S A : Type} (r : result A) : M S A := fun s => (r, s).

Definition bind {S A B : Type} (c : M S A) (k : A -> M S B) : M S B :=
  fun s =>
    match fst (c s) with
    | Ok a => k a (snd (c s))
    | Raise e => (Raise e, snd (c s))
    end.

Declare Scope py_scope.
Delimit Scope py_scope with py.
Notation "x <- c ;; k" := (bind c (fun x => k))
  (at level 61, c at next level, right associativity) : py_scope.
Notation "x <~ r ;; k" := (rbind r (fun x => k))
  (at level 61, r at next level, right associativity) : py_scope.

(* ================================================================== *)
(** ** numpy *)

Module np.
Section WithRandomState.
Context {RS : RandomState}.

(** [np.random.seed(n)]: the global state is replaced. *)
Definition random_seed (n : Z) : M rng_state unit :=
  fun _ => (Ok tt, rng_seed n).

(** [n] scalar draws in sequence, as an array is filled. *)
Fixpoint draw {A : Type} (n : nat) (next : rng_state -> A * rng_state)
  (s : rng_state) : list A * rng_state :=
  match n with
  | O => ([], s)
  | S n' =>
      let (x, s1) := next s in
      let (xs, s2) := draw n' next s1 in
      (x :: xs, s2)
  end.

(** [np.random.randint(low, high, size=size)] *)
Definition random_randint (low high size : Z) : M rng_state (list Z) :=
  fun s =>
    if (size <? 0)%Z then (Raise ValueError, s)
    else if (size =? 0)%Z then (Ok [], s)
    else if (high <=? low)%Z then (Raise ValueError, s)
    else
      let r := draw (Z.to_nat size) (rng_randint low high) s in
      (Ok (fst r), snd r).

(** [np.random.uniform(low, high, size=size)]:
    [low + (high - low) * random_sample()] per element. *)
Definition uniform_next (low high : R) (s : rng_state) : R * rng_state :=
  ((low + (high - low) * fst (rng_random_sample s))%R,
   snd (rng_random_sample s)).

Definition random_uniform (low high : R) (size : Z) : M rng_state (list R) :=
  fun s =>
    if (size <? 0)%Z then (Raise ValueError, s)
    else
      let r := draw (Z.to_nat size) (uniform_next low high) s in
      (Ok (fst r), snd r).

(** [np.random.choice(a, size=size)]: indices from [randint(0, len(a))],
    then [a[idx]]. *)
Definition random_choice (a : list string) (size : Z)
  : M rng_state (list string) :=
  fun s =>
    if Nat.eqb (List.length a) 0 && negb (size =? 0)%Z
    then (Raise ValueError, s)
    else
      let r := random_randint 0 (Z.of_nat (List.length a)) size s in
      (rbind (fst r)
         (fun idx => Ok (map (fun i => nth (Z.to_nat i) a EmptyString) idx)),
       snd r).
End WithRandomState.

(** [np.linspace(start, stop, num)], end point included. *)
Definition linspace (start stop : R) (num : Z) : result (list R) :=
  if (num <? 0)%Z then Raise ValueError
  else
    let n := Z.to_nat num in
    let div := (n - 1)%nat in
    let delta := (stop - start)%R in
    let y := map INR (seq 0 n) in
    if Nat.ltb 0 div
    then Ok (map (fun x => (x * (delta / INR div) + start)%R) y)
    else Ok (map (fun x => (x * delta + start)%R) y).

(** [np.sin] on an array. *)
Definition sin (x : list R) : list R := map Rtrigo_def.sin x.

(** [array * scalar] *)
Definition mul_scalar (x : list R) (c : R) : list R :=
  map (fun v => (v * c)%R) x.

(** [int_array + float_array] of equal shapes; other shapes do not occur
    in this program and raise here. *)
Definition add (a : list Z) (b : list R) : result (list R) :=
  if Nat.eqb (List.length a) (List.length b)
  then Ok (map (fun p => (IZR (fst p) + snd p)%R) (combine a b))
  else Raise ValueError.
End np.

(* ================================================================== *)
(** ** pandas: series and frames *)

Module pd.
Local Open Scope py_scope.

(** A column, by the kind of its values. *)
Inductive Series : Type :=
| Datetime64 (v : list Timestamp.t)
| Float64 (v : list R)
| Int64 (v : list Z)
| Object (v : list string).

Definition len (s : Series) : nat :=
  match s with
  | Datetime64 v => List.length v
  | Float64 v => List.length v
  | Int64 v => List.length v
  | Object v => List.length v
  end.

(** A frame: its columns in insertion order, all of one length. *)
Definition DataFrame : Type := list (string * Series).

Definition nrows (df : DataFrame) : nat :=
  match df with
  | [] => 0
  | (_, s) :: _ => len s
  end.

(** [df.columns]: the column names, in order. *)
Definition columns (df : DataFrame) : list string := map fst df.

(** [pd.date_range(start=start, periods=periods, freq='D')]; a negative
    number of periods is refused with an OverflowError. *)
Definition date_range (start : string) (periods : Z)
  : result (list Timestamp.t) :=
  t0 <~ Timestamp.parse start ;;
  if (periods <? 0)%Z then Raise OverflowError
  else Ok (map (fun i => (t0 + Z.of_nat i * Calendar.ns_per_day)%Z)
             (seq 0 (Z.to_nat periods))).

(** [pd.DataFrame({...})]: the arrays must have one length. *)
Definition DataFrame_of_dict (d : list (string * Series)) : result DataFrame :=
  if forallb (fun c => Nat.eqb (len (snd c)) (nrows d)) d
  then Ok d
  else Raise ValueError.

(** [df[name]] *)
Fixpoint getitem (df : DataFrame) (name : string) : result Series :=
  match df with
  | [] => Raise KeyError
  | (n, s) :: rest => if String.eqb n name then Ok s else getitem rest name
  end.

Fixpoint assign (df : DataFrame) (name : string) (s : Series) : DataFrame :=
  match df with
  | [] => [(name, s)]
  | (n, s0) :: rest =>
      if String.eqb n name then (n, s) :: rest
      else (n, s0) :: assign rest name s
  end.

(** [df[name] = s]: an existing column is replaced in place, a new one
    is appended. *)
Definition setitem (df : DataFrame) (name : string) (s : Series)
  : result DataFrame :=
  match df with
  | [] => Ok [(name, s)]
  | _ :: _ =>
      if Nat.eqb (len s) (nrows df) then Ok (assign df name s)
      else Raise ValueError
  end.

Definition as_float (s : Series) : result (list R) :=
  match s with
  | Float64 v => Ok v
  | Int64 v => Ok (map IZR v)
  | _ => Raise TypeError
  end.

(** [a * b] on two columns of one frame (equal lengths, same index). *)
Definition mul (a b : Series) : result Series :=
  match a, b with
  | Int64 x, Int64 y =>
      if Nat.eqb (List.length x) (List.length y)
      then Ok (Int64 (map (fun p => (fst p * snd p)%Z) (combine x y)))
      else Raise ValueError
  | _, _ =>
      x <~ as_float a ;;
      y <~ as_float b ;;
      if Nat.eqb (List.length x) (List.length y)
      then Ok (Float64 (map (fun p => (fst p * snd p)%R) (combine x y)))
      else Raise ValueError
  end.

(** [s.dt.strftime(fmt)] *)
Definition dt_strftime (s : Series) (fmt : string) : result Series :=
  match s with
  | Datetime64 v => Ok (Object (map (Timestamp.strftime fmt) v))
  | _ => Raise AttributeError
  end.

(** *** groupby *)

(** The key of a row: its values in the key columns. *)
Definition key : Type := list string.

Definition key_eq_dec : forall k1 k2 : key, {k1 = k2} + {k1 <> k2} :=
  list_eq_dec string_dec.

Definition key_eqb (k1 k2 : key) : bool :=
  if key_eq_dec k1 k2 then true else false.

(** Python's order on tuples of strings. *)
Fixpoint key_compare (k1 k2 : key) : comparison :=
  match k1, k2 with
  | [], [] => Eq
  | [], _ :: _ => Lt
  | _ :: _, [] => Gt
  | a :: k1', b :: k2' =>
      match String.compare a b with
      | Eq => key_compare k1' k2'
      | c => c
      end
  end.

Fixpoint insert_key (k : key) (l : list key) : list key :=
  match l with
  | [] => [k]
  | x :: l' =>
      match key_compare k x with
      | Gt => x :: insert_key k l'
      | _ => k :: l
      end
  end.

Definition sort_keys (l : list key) : list key :=
  fold_right insert_key [] l.

Definition as_object (s : Series) : result (list string) :=
  match s with
  | Object v => Ok v
  | _ => Raise TypeError
  end.

Fixpoint key_columns (df : DataFrame) (by_ : list string)
  : result (list (list string)) :=
  match by_ with
  | [] => Ok []
  | name :: rest =>
      s <~ getitem df name ;;
      c <~ as_object s ;;
      cs <~ key_columns df rest ;;
      Ok (c :: cs)
  end.

Definition row_keys (cols : list (list string)) (n : nat) : list key :=
  map (fun i => map (fun c => nth i c EmptyString) cols) (seq 0 n).

(** [df.groupby(by)]: the frame, the key of every row, and the distinct
    keys in sorted order ([sort=True] is the default).  The key columns of
    this program all hold strings; other columns raise here. *)
Record GroupBy : Type := {
  obj : DataFrame;
  by_ : list string;
  keys : list key;
  groups : list key }.

Definition groupby (df : DataFrame) (names : list string) : result GroupBy :=
  match names with
  | [] => Raise ValueError
  | _ :: _ =>
      cols <~ key_columns df names ;;
      let ks := row_keys cols (nrows df) in
      Ok {| obj := df; by_ := names; keys := ks;
            groups := sort_keys (nodup key_eq_dec ks) |}
  end.

(** The values of a column on the rows of one group, in row order. *)
Definition group_values {A : Type} (ks : list key) (v : list A) (k : key)
  : list A :=
  map snd (filter (fun kv => key_eqb (fst kv) k) (combine ks v)).

Definition Rsum (l : list R) : R := fold_right Rplus 0%R l.
Definition Zsum (l : list Z) : Z := fold_right Z.add 0%Z l.
Definition Rmean (l : list R) : R := (Rsum l / INR (List.length l))%R.

Inductive reduction : Type := Sum | Mean.

(** One column reduced per group. *)
Definition reduce (r : reduction) (gb : GroupBy) (s : Series) : result Series :=
  match r, s with
  | Sum, Float64 v =>
      Ok (Float64 (map (fun k => Rsum (group_values (keys gb) v k)) (groups gb)))
  | Sum, Int64 v =>
      Ok (Int64 (map (fun k => Zsum (group_values (keys gb) v k)) (groups gb)))
  | Mean, Float64 v =>
      Ok (Float64 (map (fun k => Rmean (group_values (keys gb) v k)) (groups gb)))
  | Mean, Int64 v =>
      Ok (Float64
            (map (fun k => Rmean (map IZR (group_values (keys gb) v k)))
               (groups gb)))
  | _, _ => Raise TypeError
  end.

(** [gb[cols].sum()] and [gb[cols].mean()]: the selected columns, each
    reduced per group; the result is indexed by the group keys. *)
Fixpoint aggregate (r : reduction) (gb : GroupBy) (cols : list string)
  : result (list (string * Series)) :=
  match cols with
  | [] => Ok []
  | name :: rest =>
      s <~ getitem (obj gb) name ;;
      v <~ reduce r gb s ;;
      vs <~ aggregate r gb rest ;;
      Ok ((name, v) :: vs)
  end.

(** The index of an aggregate as columns, one per key column. *)
Fixpoint index_columns (names : list string) (pos : nat) (ks : list key)
  : list (string * Series) :=
  match names with
  | [] => []
  | name :: rest =>
      (name, Object (map (fun k => nth pos k EmptyString) ks))
      :: index_columns rest (S pos) ks
  end.

(** [.reset_index()]: the key columns first, then the reduced columns. *)
Definition reset_index (gb : GroupBy) (agg : list (string * Series))
  : DataFrame :=
  index_columns (by_ gb) 0 (groups gb) ++ agg.

Definition groupby_agg (df : DataFrame) (names : list string)
  (cols : list string) (r : reduction) : result DataFrame :=
  gb <~ groupby df names ;;
  agg <~ aggregate r gb cols ;;
  Ok (reset_index gb agg).
End pd.

(* ================================================================== *)
(** ** app.py *)

Section App.
Context {RS : RandomState}.
Local Open Scope py_scope.
Local Open Scope string_scope.

(** The body of [generate_data]. *)
Definition generate_data : M rng_state pd.DataFrame :=
  _ <- np.random_seed 42 ;;
  date_range <- lift (pd.date_range "2023-01-01" 100) ;;
  sales_base <- np.random_randint 100 500 100 ;;
  wave <- lift (np.linspace 0 10 100) ;;
  sales <- lift (np.add sales_base (np.mul_scalar (np.sin wave) 50)) ;;
  customers <- np.random_randint 50 200 100 ;;
  avg_purchase <- np.random_uniform 10 50 100 ;;
  category <- np.random_choice ["A"; "B"; "C"; "D"] 100 ;;
  region <- np.random_choice ["East"; "West"; "North"; "South"] 100 ;;
  df <- lift (pd.DataFrame_of_dict
                [("date", pd.Datetime64 date_range);
                 ("sales", pd.Float64 sales);
                 ("customers", pd.Int64 customers);
                 ("avg_purchase", pd.Float64 avg_purchase);
                 ("category", pd.Object category);
                 ("region", pd.Object region)]) ;;
  df <- lift (s <~ pd.getitem df "sales" ;;
              a <~ pd.getitem df "avg_purchase" ;;
              revenue <~ pd.mul s a ;;
              pd.setitem df "revenue" revenue) ;;
  df <- lift (d <~ pd.getitem df "date" ;;
              year_month <~ pd.dt_strftime d "%Y-%m" ;;
              pd.setitem df "year_month" year_month) ;;
  ret df.

(** What a run of the script can see and change: the global generator of
    [np.random] and the entry [st.cache_data] keeps for [generate_data]
    (the function has no argument, so the entry is a single cell). *)
Record World : Type := {
  np_random : rng_state;
  generate_data_cache : option pd.DataFrame }.

(** [@st.cache_data]: a stored value is returned without running the
    body; otherwise the body runs and its value is stored.  A body that
    raises stores nothing. *)
Definition st_cache_data (body : M rng_state pd.DataFrame)
  : M World pd.DataFrame :=
  fun w =>
    match generate_data_cache w with
    | Some v => (Ok v, w)
    | None =>
        let r := body (np_random w) in
        match fst r with
        | Ok v =>
            (Ok v, {| np_random := snd r; generate_data_cache := Some v |})
        | Raise e =>
            (Raise e, {| np_random := snd r; generate_data_cache := None |})
        end
    end.


(** Python hands values around as objects: beside its value an object
    has an identity, which [is] compares. *)
Record object (A : Type) : Type := { identity : nat; value : A }.

(** The objects a process has created are numbered in the order of their
    creation; [allocated] is the identity the next one gets. *)
Record Process : Type := { world : World; allocated : nat }.

(** The object a call of the decorated function hands to its caller.
    [st.cache_data] keeps a pickled copy of the value, not the object: a
    hit unpickles the copy into a new object, a miss returns the object
    the body has just built.  Either way the caller gets an object that no
    earlier call has returned. *)
Definition st_cache_data_object (body : M rng_state pd.DataFrame)
  : M Process (object pd.DataFrame) :=
  fun p =>
    let r := st_cache_data body (world p) in
    match fst r with
    | Ok v =>
        (Ok {| identity := allocated p; value := v |},
         {| world := snd r; allocated := S (allocated p) |})
    | Raise e =>
        (Raise e, {| world := snd r; allocated := allocated p |})
    end.

(** The tables one run of the script hands to the chart libraries. *)
Record Page : Type := {
  data : pd.DataFrame;
  region_sales : pd.DataFrame;
  category_avg : pd.DataFrame;
  heatmap_data : pd.DataFrame }.

(** One run of the script, top to bottom.  The drawing calls only read
    the tables and are left out. *)
Definition app : M World Page :=
  data <- st_cache_data generate_data ;;
  region_sales <- lift (pd.groupby_agg data ["region"] ["sales"] pd.Sum) ;;
  category_avg <-
    lift (pd.groupby_agg data ["category"]
            ["sales"; "customers"; "avg_purchase"] pd.Mean) ;;
  heatmap_data <-
    lift (pd.groupby_agg data ["year_month"; "category"] ["sales"] pd.Sum) ;;
  ret {| data := data; region_sales := region_sales;
         category_avg := category_avg; heatmap_data := heatmap_data |}.
End App.

(* ================================================================== *)
(** ** Rows, sessions and the vocabulary of the specification *)

(** One observation: a line of the table across its eight columns. *)
Record Row : Type := {
  date : Timestamp.t;
  sales : R;
  customers : Z;
  avg_purchase : R;
  category : string;
  region : string;
  revenue : R;
  year_month : string }.

Definition datetime_at (df : pd.DataFrame) (col : string) (i : nat)
  : option Timestamp.t :=
  match pd.getitem df col with
  | Ok (pd.Datetime64 v) => nth_error v i
  | _ => None
  end.

Definition float_at (df : pd.DataFrame) (col : string) (i : nat) : option R :=
  match pd.getitem df col with
  | Ok (pd.Float64 v) => nth_error v i
  | _ => None
  end.

Definition int_at (df : pd.DataFrame) (col : string) (i : nat) : option Z :=
  match pd.getitem df col with
  | Ok (pd.Int64 v) => nth_error v i
  | _ => None
  end.

Definition object_at (df : pd.DataFrame) (col : string) (i : nat)
  : option string :=
  match pd.getitem df col with
  | Ok (pd.Object v) => nth_error v i
  | _ => None
  end.

(** Row [i] of a frame that has the eight columns. *)
Definition row (df : pd.DataFrame) (i : nat) : option Row :=
  match datetime_at df "date" i, float_at df "sales" i,
        int_at df "customers" i, float_at df "avg_purchase" i,
        object_at df "category" i, object_at df "region" i,
        float_at df "revenue" i, object_at df "year_month" i with
  | Some d, Some s, Some c, Some a, Some k, Some g, Some v, Some ym =>
      Some {| date := d; sales := s; customers := c; avg_purchase := a;
              category := k; region := g; revenue := v; year_month := ym |}
  | _, _, _, _, _, _, _, _ => None
  end.

(** All rows of a frame, in order. *)
Definition rows (df : pd.DataFrame) : list Row :=
  flat_map (fun i => match row df i with Some r => [r] | None => [] end)
    (seq 0 (pd.nrows df)).

(** A float column and an object column of a frame, as lists. *)
Definition float_column (df : pd.DataFrame) (col : string) : list R :=
  match pd.getitem df col with
  | Ok (pd.Float64 v) => v
  | _ => []
  end.

Definition object_column (df : pd.DataFrame) (col : string) : list string :=
  match pd.getitem df col with
  | Ok (pd.Object v) => v
  | _ => []
  end.



(** The distinct values of a list, and the (year_month, category) pairs
    that occur in a list of rows. *)
Definition distinct (l : list string) : list string := nodup string_dec l.

Definition occurs (rs : list Row) (ym k : string) : Prop :=
  exists r, In r rs /\ year_month r = ym /\ category r = k.

Section Sessions.
Context {RS : RandomState}.
Local Open Scope string_scope.

(** The columns as the generator draws them after [seed(42)]. *)
Definition drawn_sales_base : list Z * rng_state :=
  np.draw 100 (rng_randint 100 500) (rng_seed 42).

Definition drawn_customers : list Z * rng_state :=
  np.draw 100 (rng_randint 50 200) (snd drawn_sales_base).

Definition drawn_avg_purchase : list R * rng_state :=
  np.draw 100 (np.uniform_next 10 50) (snd drawn_customers).

Definition drawn_category : list Z * rng_state :=
  np.draw 100 (rng_randint 0 4) (snd drawn_avg_purchase).

Definition drawn_region : list Z * rng_state :=
  np.draw 100 (rng_randint 0 4) (snd drawn_category).

(** The columns of the table in closed form, from those draws. *)
Definition epoch : Timestamp.t := (19358 * Calendar.ns_per_day)%Z.

Definition the_date : list Timestamp.t :=
  map (fun i => (epoch + Z.of_nat i * Calendar.ns_per_day)%Z) (seq 0 100).

Definition the_wave : list R :=
  map (fun x => (x * ((10 - 0) / INR 99) + 0)%R) (map INR (seq 0 100)).

Definition the_sales : list R :=
  map (fun p => (IZR (fst p) + snd p)%R)
    (combine (fst drawn_sales_base) (np.mul_scalar (np.sin the_wave) 50)).

Definition the_category : list string :=
  map (fun i => nth (Z.to_nat i) ["A"; "B"; "C"; "D"] EmptyString)
    (fst drawn_category).

Definition the_region : list string :=
  map (fun i => nth (Z.to_nat i) ["East"; "West"; "North"; "South"]
                  EmptyString)
    (fst drawn_region).

Definition the_revenue : list R :=
  map (fun p => (fst p * snd p)%R)
    (combine the_sales (fst drawn_avg_purchase)).

Definition the_year_month : list string :=
  map (Timestamp.strftime "%Y-%m") the_date.

Definition the_dataset : pd.DataFrame :=
  [("date", pd.Datetime64 the_date);
   ("sales", pd.Float64 the_sales);
   ("customers", pd.Int64 (fst drawn_customers));
   ("avg_purchase", pd.Float64 (fst drawn_avg_purchase));
   ("category", pd.Object the_category);
   ("region", pd.Object the_region);
   ("revenue", pd.Float64 the_revenue);
   ("year_month", pd.Object the_year_month)].

(** Row [i] of that table. *)
Definition the_row (i : nat) : Row :=
  {| date := nth i the_date 0%Z;
     sales := nth i the_sales 0%R;
     customers := nth i (fst drawn_customers) 0%Z;
     avg_purchase := nth i (fst drawn_avg_purchase) 0%R;
     category := nth i the_category "";
     region := nth i the_region "";
     revenue := nth i the_revenue 0%R;
     year_month := nth i the_year_month "" |}.

(** The three aggregates of that table in closed form: the key of every
    row, the distinct keys in order, and one reduced value per key. *)
Definition the_keys (cols : list (list string)) : list pd.key :=
  pd.row_keys cols 100.

Definition the_groups (cols : list (list string)) : list pd.key :=
  pd.sort_keys (nodup pd.key_eq_dec (the_keys cols)).

Definition the_region_sales : pd.DataFrame :=
  [("region",
    pd.Object (map (fun k => nth 0 k "") (the_groups [the_region])));
   ("sales",
    pd.Float64
      (map (fun k => pd.Rsum (pd.group_values (the_keys [the_region])
                                the_sales k))
         (the_groups [the_region])))].

Definition the_category_avg : pd.DataFrame :=
  [("category",
    pd.Object (map (fun k => nth 0 k "") (the_groups [the_category])));
   ("sales",
    pd.Float64
      (map (fun k => pd.Rmean (pd.group_values (the_keys [the_category])
                                 the_sales k))
         (the_groups [the_category])));
   ("customers",
    pd.Float64
      (map (fun k => pd.Rmean (map IZR
                                 (pd.group_values (the_keys [the_category])
                                    (fst drawn_customers) k)))
         (the_groups [the_category])));
   ("avg_purchase",
    pd.Float64
      (map (fun k => pd.Rmean (pd.group_values (the_keys [the_category])
                                 (fst drawn_avg_purchase) k))
         (the_groups [the_category])))].

Definition the_heatmap_data : pd.DataFrame :=
  [("year_month",
    pd.Object (map (fun k => nth 0 k "")
                 (the_groups [the_year_month; the_category])));
   ("category",
    pd.Object (map (fun k => nth 1 k "")
                 (the_groups [the_year_month; the_category])));
   ("sales",
    pd.Float64
      (map (fun k => pd.Rsum (pd.group_values
                                (the_keys [the_year_month; the_category])
                                the_sales k))
         (the_groups [the_year_month; the_category])))].

Definition the_page : Page :=
  {| data := the_dataset;
     region_sales := the_region_sales;
     category_avg := the_category_avg;
     heatmap_data := the_heatmap_data |}.

(** The world once the table is cached. *)
Definition warm (s : rng_state) : World :=
  {| np_random := s; generate_data_cache := Some the_dataset |}.

(** A process that has just started: any generator state, nothing
    cached. *)
Definition fresh (s : rng_state) : World :=
  {| np_random := s; generate_data_cache := None |}.

(** The worlds a session passes through: it starts fresh, the script is
    run again on every interaction, and between runs other code may use
    the global generator. *)
Inductive reachable : World -> Prop :=
| reachable_fresh : forall s, reachable (fresh s)
| reachable_run : forall w, reachable w -> reachable (snd (app w))
| reachable_rng : forall w s,
    reachable w ->
    reachable {| np_random := s;
                 generate_data_cache := generate_data_cache w |}.
End Sessions.

(* ================================================================== *)
(** ** Properties of a table, as the specification states them *)

Section Properties.
Local Open Scope string_scope.

(** The table has exactly [n] rows, each with all eight fields. *)
Definition has_rows (df : pd.DataFrame) (n : nat) : Prop :=
  pd.nrows df = n /\
  (forall i, i < n -> exists r, row df i = Some r) /\
  (forall i r, row df i = Some r -> i < n).

(** In every row, [revenue] is [sales * avg_purchase]. *)
Definition revenue_derived (df : pd.DataFrame) : Prop :=
  forall i r, row df i = Some r -> revenue r = (sales r * avg_purchase r)%R.

(** What [df['sales'] * df['avg_purchase']] evaluates to on a table. *)
Definition recomputed_revenue (df : pd.DataFrame) : result pd.Series :=
  (s <~ pd.getitem df "sales" ;;
   a <~ pd.getitem df "avg_purchase" ;;
   pd.mul s a)%py.

(** Each entry is the calendar day after the one before it. *)
Definition consecutive_days (ds : list Timestamp.t) : Prop :=
  forall i, S i < List.length ds ->
    nth (S i) ds 0%Z = (nth i ds 0 + Calendar.ns_per_day)%Z /\
    Timestamp.ymd (nth (S i) ds 0%Z)
    = Calendar.next_day (Timestamp.ymd (nth i ds 0%Z)).

Definition strictly_increasing (ds : list Timestamp.t) : Prop :=
  forall i j, i < j < List.length ds -> (nth i ds 0 < nth j ds 0)%Z.

(** The label [YYYY-MM] of a date, and the first day of its month. *)
Definition year_month_label (ts : Timestamp.t) : string :=
  Timestamp.zero_padded 4 (Timestamp.year ts) ++ "-"
  ++ Timestamp.zero_padded 2 (Timestamp.month ts).

Definition month_start (ts : Timestamp.t) : Timestamp.t :=
  (Calendar.days_from_civil (Timestamp.year ts) (Timestamp.month ts) 1
   * Calendar.ns_per_day)%Z.
End Properties.

(* ================================================================== *)
(** ** The sales column and its sums in binary64

    The columns above hold real numbers.  A [float64] is a binary64
    number and every operation on it rounds; the order of the additions
    then decides the last digits of a sum.  This part evaluates the
    [sales] column of [generate_data], its total and its per-region sums
    as the libraries do, in binary64, on numpy's own generator. *)

Module f64.
Local Open Scope float_scope.

Definition of_Z (z : Z) : float :=
  if (z <? 0)%Z then - PrimFloat.of_uint63 (Uint63.of_Z (- z))
  else PrimFloat.of_uint63 (Uint63.of_Z z).

Definition of_nat (n : nat) : float := of_Z (Z.of_nat n).

(** [np.linspace(start, stop, num)]: [i * step + start], and with more
    than one point the last is [stop] itself. *)
Definition linspace (start stop : float) (num : nat) : list float :=
  let div := (num - 1)%nat in
  let delta := stop - start in
  let y := map of_nat (seq 0 num) in
  let y := if Nat.ltb 0 div
           then map (fun x => x * (delta / of_nat div) + start) y
           else map (fun x => x * delta + start) y in
  if Nat.ltb 1 num then removelast y ++ [stop] else y.

(** [np.sin] is the sine of the C library, which binary64 arithmetic does
    not define.  Its values at the 100 arguments this program passes are
    tabulated (argument, sine); any other argument has no value here. *)
Definition sin_table : list (float * float) :=
  [
   (0x0.0p+0, 0x0.0p+0);
   (0x1.9dbcc48676f31p-4, 0x1.9d08bf5305956p-4);
   (0x1.9dbcc48676f31p-3, 0x1.9aedc9a5f5351p-3);
   (0x1.364d9364d9365p-2, 0x1.3193636b1c382p-2);
   (0x1.9dbcc48676f31p-2, 0x1.9292677026355p-2);
   (0x1.0295fad40a57fp-1, 0x1.ef76cdef30017p-2);
   (0x1.364d9364d9365p-1, 0x1.23a714e7b868ep-1);
   (0x1.6a052bf5a814bp-1, 0x1.4c999e3f5adeap-1);
   (0x1.9dbcc48676f31p-1, 0x1.7228261b92c6bp-1);
   (0x1.d1745d1745d17p-1, 0x1.93f0a8e27cc22p-1);
   (0x1.0295fad40a57fp+0, 0x1.b19afc0e42391p-1);
   (0x1.1c71c71c71c72p+0, 0x1.cad9b444b5350p-1);
   (0x1.364d9364d9365p+0, 0x1.df6aef63085dep-1);
   (0x1.50295fad40a58p+0, 0x1.ef19006e58b17p-1);
   (0x1.6a052bf5a814bp+0, 0x1.f9bafba8506f9p-1);
   (0x1.83e0f83e0f83ep+0, 0x1.ff35215a4fa38p-1);
   (0x1.9dbcc48676f31p+0, 0x1.ff79264065b13p-1);
   (0x1.b79890cede624p+0, 0x1.fa8658d71da94p-1);
   (0x1.d1745d1745d17p+0, 0x1.f069a32ac2b91p-1);
   (0x1.eb50295fad40ap+0, 0x1.e13d692363b30p-1);
   (0x1.0295fad40a57fp+1, 0x1.cd2943a58aa3dp-1);
   (0x1.0f83e0f83e0f8p+1, 0x1.b461993b65d8dp-1);
   (0x1.1c71c71c71c72p+1, 0x1.9727155413129p-1);
   (0x1.295fad40a57ebp+1, 0x1.75c5ff7df1288p-1);
   (0x1.364d9364d9365p+1, 0x1.509574546c7d4p-1);
   (0x1.433b79890cedep+1, 0x1.27f68228cd4e6p-1);
   (0x1.50295fad40a58p+1, 0x1.f8a6576eab5cap-2);
   (0x1.5d1745d1745d1p+1, 0x1.9c3aa6fb6edf1p-2);
   (0x1.6a052bf5a814bp+1, 0x1.3b9b2509cf063p-2);
   (0x1.76f31219dbcc4p+1, 0x1.af87f697d5601p-3);
   (0x1.83e0f83e0f83ep+1, 0x1.c6e6e3fa2b9fbp-4);
   (0x1.90cede62433b7p+1, 0x1.50d55d39ec31ep-7);
   (0x1.9dbcc48676f31p+1, (-0x1.731f6e65336b7p-4));
   (0x1.aaaaaaaaaaaabp+1, (-0x1.86487f01b9734p-3));
   (0x1.b79890cede624p+1, (-0x1.27835dad0329cp-2));
   (0x1.c48676f31219ep+1, (-0x1.88df4411d0688p-2));
   (0x1.d1745d1745d17p+1, (-0x1.e639dd548ce04p-2));
   (0x1.de62433b79891p+1, (-0x1.1f4fc3f23011dp-1));
   (0x1.eb50295fad40ap+1, (-0x1.4894c8e5e7492p-1));
   (0x1.f83e0f83e0f84p+1, (-0x1.6e80495fdc57cp-1));
   (0x1.0295fad40a57fp+2, (-0x1.90af4f2450f40p-1));
   (0x1.090cede62433bp+2, (-0x1.aec8a42591f98p-1));
   (0x1.0f83e0f83e0f8p+2, (-0x1.c87dbb55c4084p-1));
   (0x1.15fad40a57eb5p+2, (-0x1.dd8b7da6a8c54p-1));
   (0x1.1c71c71c71c72p+2, (-0x1.edbaf9205d3d9p-1));
   (0x1.22e8ba2e8ba2ep+2, (-0x1.f8e1f04620e1bp-1));
   (0x1.295fad40a57ebp+2, (-0x1.fee34852ec110p-1));
   (0x1.2fd6a052bf5a8p+2, (-0x1.ffaf552e254b3p-1));
   (0x1.364d9364d9365p+2, (-0x1.fb4402523b0bcp-1));
   (0x1.3cc48676f3122p+2, (-0x1.f1acd83a6491fp-1));
   (0x1.433b79890cedep+2, (-0x1.e302de495eaa3p-1));
   (0x1.49b26c9b26c9bp+2, (-0x1.cf6c5977b157ap-1));
   (0x1.50295fad40a58p+2, (-0x1.b71c6873f60a7p-1));
   (0x1.56a052bf5a815p+2, (-0x1.9a527e39c3f63p-1));
   (0x1.5d1745d1745d1p+2, (-0x1.7959bc7b6dd0fp-1));
   (0x1.638e38e38e38ep+2, (-0x1.54882f8eb54c2p-1));
   (0x1.6a052bf5a814bp+2, (-0x1.2c3deddc29e56p-1));
   (0x1.707c1f07c1f08p+2, (-0x1.00e41d1b42764p-1));
   (0x1.76f31219dbcc4p+2, (-0x1.a5d7bfd342a03p-2));
   (0x1.7d6a052bf5a81p+2, (-0x1.459a5d134e2ddp-2));
   (0x1.83e0f83e0f83ep+2, (-0x1.c416772b804c2p-3));
   (0x1.8a57eb50295fbp+2, (-0x1.f0b8ba6b2161fp-4));
   (0x1.90cede62433b7p+2, (-0x1.50d0ceef3de61p-6));
   (0x1.9745d1745d174p+2, 0x1.492c136d98cbbp-4);
   (0x1.9dbcc48676f31p+2, 0x1.7198a5a3f64bbp-3);
   (0x1.a433b79890ceep+2, 0x1.1d6b597e8f7b3p-2);
   (0x1.aaaaaaaaaaaabp+2, 0x1.7f21800c3f05bp-2);
   (0x1.b1219dbcc4867p+2, 0x1.dcefc5980c863p-2);
   (0x1.b79890cede624p+2, 0x1.1af0ad581bac7p-1);
   (0x1.be0f83e0f83e1p+2, 0x1.4487101cc6ca9p-1);
   (0x1.c48676f31219ep+2, 0x1.6ace829baecffp-1);
   (0x1.cafd6a052bf5ap+2, 0x1.8d631ea48afbcp-1);
   (0x1.d1745d1745d17p+2, 0x1.abeaa50b95f02p-1);
   (0x1.d7eb50295fad4p+2, 0x1.c615692f3ec93p-1);
   (0x1.de62433b79891p+2, 0x1.db9f20e67005ep-1);
   (0x1.e4d9364d9364dp+2, 0x1.ec4f96b8c6151p-1);
   (0x1.eb50295fad40ap+2, 0x1.f7fb3c8f995f4p-1);
   (0x1.f1c71c71c71c7p+2, 0x1.fe839d61076ecp-1);
   (0x1.f83e0f83e0f84p+2, 0x1.ffd7acac55c6fp-1);
   (0x1.feb50295fad40p+2, 0x1.fbf3f2f83e09ap-1);
   (0x1.0295fad40a57fp+3, 0x1.f2e296df057e7p-1);
   (0x1.05d1745d1745dp+3, 0x1.e4bb4290c38d4p-1);
   (0x1.090cede62433bp+3, 0x1.d1a2e610f9d25p-1);
   (0x1.0c48676f3121ap+3, 0x1.b9cb56d0ab250p-1);
   (0x1.0f83e0f83e0f8p+3, 0x1.9d72cda084f37p-1);
   (0x1.12bf5a814afd7p+3, 0x1.7ce3444e83cb6p-1);
   (0x1.15fad40a57eb5p+3, 0x1.5871b496dbb1cp-1);
   (0x1.19364d9364d93p+3, 0x1.307d3a5ffa8cfp-1);
   (0x1.1c71c71c71c72p+3, 0x1.056e1b8465db0p-1);
   (0x1.1fad40a57eb50p+3, 0x1.af696f64729a5p-2);
   (0x1.22e8ba2e8ba2ep+3, 0x1.4f90c64ceb855p-2);
   (0x1.262433b79890dp+3, 0x1.d898bd05f2e16p-3);
   (0x1.295fad40a57ebp+3, 0x1.0d3e9085cd066p-3);
   (0x1.2c9b26c9b26cap+3, 0x1.f92dd2cbb59ffp-6);
   (0x1.2fd6a052bf5a8p+3, (-0x1.1f2fd0ee9efe8p-4));
   (0x1.331219dbcc486p+3, (-0x1.5cdeccce9c67ep-3));
   (0x1.364d9364d9365p+3, (-0x1.134b9cc628754p-2));
   (0x1.39890cede6243p+3, (-0x1.75595ed4dc37cp-2));
   (0x1.3cc48676f3122p+3, (-0x1.d398c70e0f03cp-2));
   (0x1.4000000000000p+3, (-0x1.1689ef5f34f52p-1))
  ].

Definition sin (x : float) : float :=
  match find (fun p => PrimFloat.eqb (fst p) x) sin_table with
  | Some p => snd p
  | None => PrimFloat.nan
  end.





End f64.



(* ================================================================== *)
(** ** Lists *)

Section Lists.
Variables A B C : Type.

Lemma nth_map_seq (f : nat -> A) (n i : nat) (d : A) :
  i < n -> nth i (map f (seq 0 n)) d = f i.
Proof.
  intros Hi. rewrite (nth_indep _ d (f 0)) by (now rewrite length_map, length_seq).
  rewrite (map_nth f (seq 0 n) 0 i). now rewrite seq_nth.
Qed.

Lemma nth_map_combine (f : A * B -> C) (a : list A) (b : list B)
  (i : nat) (da : A) (db : B) (d : C) :
  List.length a = List.length b -> i < List.length a ->
  nth i (map f (combine a b)) d = f (nth i a da, nth i b db).
Proof.
  intros Hab Hi.
  rewrite (nth_indep _ d (f (da, db)))
    by (rewrite length_map, length_combine; lia).
  rewrite (map_nth f (combine a b) (da, db) i).
  now rewrite combine_nth.
Qed.

Lemma nth_map_in (f : A -> B) (l : list A) (i : nat) (da : A) (d : B) :
  i < List.length l -> nth i (map f l) d = f (nth i l da).
Proof.
  intros Hi. rewrite (nth_indep _ d (f da)) by (now rewrite length_map).
  apply map_nth.
Qed.

Lemma list_eq_map_nth (l : list A) (d : A) :
  l = map (fun i => nth i l d) (seq 0 (List.length l)).
Proof.
  apply (nth_ext _ _ d d).
  - now rewrite length_map, length_seq.
  - intros i Hi. now rewrite nth_map_seq.
Qed.



Lemma NoDup_list_prod (l : list A) (l' : list B) :
  NoDup l -> NoDup l' -> NoDup (list_prod l l').
Proof.
  intros Hl Hl'. induction Hl as [|x l Hx Hl IH]; cbn [list_prod].
  - constructor.
  - apply NoDup_app.
    + apply NoDup_map_NoDup_ForallPairs; [|exact Hl'].
      intros y y' _ _ Heq. now injection Heq.
    + exact IH.
    + intros [a b] Hin Hin'. apply in_map_iff in Hin.
      destruct Hin as (y & Heq & _). injection Heq as <- _.
      apply in_prod_iff in Hin'. now destruct Hin'.
Qed.

Lemma forallb_seq (p : nat -> bool) (n : nat) :
  forallb p (seq 0 n) = true -> forall i, i < n -> p i = true.
Proof.
  intros H i Hi. rewrite forallb_forall in H. apply H, in_seq. lia.
Qed.
End Lists.

(* ================================================================== *)
(** ** Grouping: keys, sums and counts *)

Section Grouping.
Local Open Scope R_scope.

Lemma key_eqb_true (a b : pd.key) : pd.key_eqb a b = true <-> a = b.
Proof.
  unfold pd.key_eqb. destruct (pd.key_eq_dec a b); split; congruence.
Qed.

Lemma key_eqb_refl (a : pd.key) : pd.key_eqb a a = true.
Proof. now apply key_eqb_true. Qed.


Lemma insert_key_perm (k : pd.key) (l : list pd.key) :
  Permutation (pd.insert_key k l) (k :: l).
Proof.
  induction l as [|x l IH]; cbn [pd.insert_key]; [reflexivity|].
  destruct (pd.key_compare k x); try reflexivity.
  rewrite IH. apply perm_swap.
Qed.

Lemma sort_keys_perm (l : list pd.key) : Permutation (pd.sort_keys l) l.
Proof.
  induction l as [|k l IH]; cbn [pd.sort_keys fold_right]; [reflexivity|].
  rewrite insert_key_perm. now constructor.
Qed.

Lemma Rsum_app (l l' : list R) : pd.Rsum (l ++ l') = pd.Rsum l + pd.Rsum l'.
Proof.
  unfold pd.Rsum. induction l as [|x l IH]; cbn [fold_right List.app].
  - ring.
  - rewrite IH. ring.
Qed.

Lemma Rsum_cons (x : R) (l : list R) : pd.Rsum (x :: l) = x + pd.Rsum l.
Proof. reflexivity. Qed.

Lemma Rsum_perm (l l' : list R) : Permutation l l' -> pd.Rsum l = pd.Rsum l'.
Proof.
  induction 1 as [| x l l' _ IH | x y l | l l' l'' _ IH1 _ IH2].
  - reflexivity.
  - rewrite !Rsum_cons. now rewrite IH.
  - rewrite !Rsum_cons. ring.
  - now rewrite IH1.
Qed.

Lemma Rsum_map_plus (A : Type) (f g : A -> R) (l : list A) :
  pd.Rsum (map (fun x => f x + g x) l)
  = pd.Rsum (map f l) + pd.Rsum (map g l).
Proof.
  induction l as [|x l IH]; cbn [map]; rewrite ?Rsum_cons.
  - cbn. ring.
  - rewrite IH. ring.
Qed.

Lemma Rsum_map_zero (A : Type) (l : list A) :
  pd.Rsum (map (fun _ => 0) l) = 0.
Proof.
  induction l as [|x l IH]; cbn [map]; rewrite ?Rsum_cons.
  - reflexivity.
  - rewrite IH. ring.
Qed.

(** A value counted under its own key only is counted once. *)
Lemma Rsum_indicator (k : pd.key) (x : R) (gs : list pd.key) :
  NoDup gs ->
  pd.Rsum (map (fun g => if pd.key_eqb k g then x else 0) gs)
  = if in_dec pd.key_eq_dec k gs then x else 0.
Proof.
  induction 1 as [|g gs Hg Hnd IH]; [reflexivity|].
  cbn [map]. rewrite Rsum_cons, IH.
  destruct (pd.key_eqb k g) eqn:E.
  - apply key_eqb_true in E. subst g.
    destruct (in_dec pd.key_eq_dec k gs) as [Hin|_]; [contradiction|].
    destruct (in_dec pd.key_eq_dec k (k :: gs)) as [_|Hn];
      [ring | exfalso; apply Hn; now left].
  - assert (Hne : k <> g)
      by (intros ->; rewrite key_eqb_refl in E; discriminate).
    destruct (in_dec pd.key_eq_dec k gs) as [Hin|Hnin];
      destruct (in_dec pd.key_eq_dec k (g :: gs)) as [Hin'|Hnin'];
      try ring.
    + exfalso. apply Hnin'. now right.
    + exfalso. destruct Hin' as [Heq|Hin']; [congruence|contradiction].
Qed.

Lemma group_values_cons (A : Type) (k : pd.key) (ks : list pd.key)
  (x : A) (v : list A) (g : pd.key) :
  pd.group_values (k :: ks) (x :: v) g
  = if pd.key_eqb k g then x :: pd.group_values ks v g
    else pd.group_values ks v g.
Proof.
  unfold pd.group_values. cbn [combine filter fst].
  now destruct (pd.key_eqb k g).
Qed.

(** Summing the per-group sums over distinct keys that cover every row
    gives the sum over all rows. *)
Lemma Rsum_groups (gs : list pd.key) :
  NoDup gs ->
  forall (ks : list pd.key) (v : list R),
    (forall k, In k ks -> In k gs) ->
    List.length ks = List.length v ->
    pd.Rsum (map (fun g => pd.Rsum (pd.group_values ks v g)) gs) = pd.Rsum v.
Proof.
  intros Hnd. induction ks as [|k ks IH]; intros v Hcov Hlen.
  - destruct v; [|discriminate]. apply Rsum_map_zero.
  - destruct v as [|x v]; [discriminate|].
    rewrite (map_ext _ (fun g => (if pd.key_eqb k g then x else 0)
                                 + pd.Rsum (pd.group_values ks v g))).
    + rewrite Rsum_map_plus, Rsum_indicator by exact Hnd.
      rewrite IH.
      * destruct (in_dec pd.key_eq_dec k gs) as [_|Hn];
          [now rewrite Rsum_cons|].
        exfalso. apply Hn, Hcov. now left.
      * intros k' Hk'. apply Hcov. now right.
      * now injection Hlen.
    + intros g. rewrite group_values_cons.
      destruct (pd.key_eqb k g); rewrite ?Rsum_cons; ring.
Qed.

Lemma groups_nodup (ks : list pd.key) :
  NoDup (pd.sort_keys (nodup pd.key_eq_dec ks)).
Proof.
  apply (Permutation_NoDup (l := nodup pd.key_eq_dec ks)).
  - symmetry. apply sort_keys_perm.
  - apply NoDup_nodup.
Qed.

Lemma groups_in (ks : list pd.key) (k : pd.key) :
  In k (pd.sort_keys (nodup pd.key_eq_dec ks)) <-> In k ks.
Proof.
  split.
  - intros H. apply (nodup_In pd.key_eq_dec).
    revert H. apply Permutation_in, sort_keys_perm.
  - intros H. apply (nodup_In pd.key_eq_dec) in H.
    revert H. apply Permutation_in. symmetry. apply sort_keys_perm.
Qed.

Lemma groups_length (ks : list pd.key) :
  List.length (pd.sort_keys (nodup pd.key_eq_dec ks))
  = List.length (nodup pd.key_eq_dec ks).
Proof. apply Permutation_length, sort_keys_perm. Qed.

(** The sum reduction conserves the total. *)
Lemma Rsum_group_sums (ks : list pd.key) (v : list R) :
  List.length ks = List.length v ->
  pd.Rsum (map (fun g => pd.Rsum (pd.group_values ks v g))
             (pd.sort_keys (nodup pd.key_eq_dec ks)))
  = pd.Rsum v.
Proof.
  intros Hlen. apply Rsum_groups.
  - apply groups_nodup.
  - intros k Hk. now apply groups_in.
  - exact Hlen.
Qed.

(** *** Two key columns *)

Lemma row_keys_pair (ys cs : list string) (n : nat) :
  pd.row_keys [ys; cs] n
  = map (fun i => [nth i ys EmptyString; nth i cs EmptyString]) (seq 0 n).
Proof. reflexivity. Qed.

Lemma row_keys_single (col : list string) (n : nat) :
  pd.row_keys [col] n = map (fun i => [nth i col EmptyString]) (seq 0 n).
Proof. reflexivity. Qed.

Lemma in_row_keys_pair (ys cs : list string) (n : nat) (k : pd.key) :
  In k (pd.row_keys [ys; cs] n)
  <-> exists i, (i < n)%nat
                /\ k = [nth i ys EmptyString; nth i cs EmptyString].
Proof.
  rewrite row_keys_pair, in_map_iff. split.
  - intros (i & <- & Hi). apply in_seq in Hi. exists i. split; [lia|easy].
  - intros (i & Hi & ->). exists i. split; [easy|]. apply in_seq. lia.
Qed.

(** The distinct pairs of two columns are among the pairs of their
    distinct values, and are all of them exactly when every pair of
    values stands in some row. *)
Lemma distinct_pairs_count (ys cs : list string) (n : nat) :
  List.length ys = n -> List.length cs = n ->
  (List.length (nodup pd.key_eq_dec (pd.row_keys [ys; cs] n))
   <= List.length (nodup string_dec ys) * List.length (nodup string_dec cs))%nat
  /\
  (List.length (nodup pd.key_eq_dec (pd.row_keys [ys; cs] n))
   = (List.length (nodup string_dec ys)
      * List.length (nodup string_dec cs))%nat
   <-> forall y c, In y ys -> In c cs ->
         exists i, (i < n)%nat /\ nth i ys EmptyString = y
                   /\ nth i cs EmptyString = c).
Proof.
  intros Hys Hcs.
  set (P := nodup pd.key_eq_dec (pd.row_keys [ys; cs] n)).
  set (Q := map (fun p : string * string => [fst p; snd p])
              (list_prod (nodup string_dec ys) (nodup string_dec cs))).
  assert (HP : NoDup P) by apply NoDup_nodup.
  assert (HQ : NoDup Q).
  { apply NoDup_map_NoDup_ForallPairs.
    - intros [a b] [a' b'] _ _ Heq. cbn [fst snd] in Heq. congruence.
    - apply NoDup_list_prod; apply NoDup_nodup. }
  assert (LQ : List.length Q
               = (List.length (nodup string_dec ys)
                  * List.length (nodup string_dec cs))%nat)
    by (unfold Q; now rewrite length_map, length_prod).
  assert (HinQ : forall y c, In [y; c] Q <-> In y ys /\ In c cs).
  { intros y c. unfold Q. rewrite in_map_iff. split.
    - intros ([a b] & Heq & Hin). cbn [fst snd] in Heq.
      injection Heq as -> ->. apply in_prod_iff in Hin.
      now rewrite !nodup_In in Hin.
    - intros [Hy Hc]. exists (y, c). split; [reflexivity|].
      apply in_prod_iff. now rewrite !nodup_In. }
  assert (HPQ : incl P Q).
  { intros k Hk. unfold P in Hk. rewrite nodup_In in Hk.
    apply in_row_keys_pair in Hk. destruct Hk as (i & Hi & ->).
    apply HinQ. split; apply nth_In; lia. }
  rewrite <- LQ. split.
  - now apply NoDup_incl_length.
  - split.
    + intros Hlen y c Hy Hc.
      assert (Hin : In [y; c] P).
      { assert (HQP : incl Q P)
          by (apply (@NoDup_length_incl _ P Q HP);
              [rewrite Hlen; apply Nat.le_refl | exact HPQ]).
        apply HQP, HinQ. now split. }
      unfold P in Hin. rewrite nodup_In in Hin.
      apply in_row_keys_pair in Hin. destruct Hin as (i & Hi & Heq).
      injection Heq as -> ->. now exists i.
    + intros Hall. apply Nat.le_antisymm.
      * now apply NoDup_incl_length.
      * apply NoDup_incl_length; [exact HQ|].
        intros k Hk. unfold Q in Hk. apply in_map_iff in Hk.
        destruct Hk as ([y c] & <- & Hin). cbn [fst snd].
        apply in_prod_iff in Hin. rewrite !nodup_In in Hin.
        destruct (Hall y c (proj1 Hin) (proj2 Hin)) as (i & Hi & <- & <-).
        unfold P. rewrite nodup_In. apply in_row_keys_pair. now exists i.
Qed.

(** *** Bounds on sums and means *)

Lemma Rsum_bounds (a b : R) (l : list R) :
  l <> [] ->
  Forall (fun x => a <= x < b) l ->
  INR (List.length l) * a <= pd.Rsum l < INR (List.length l) * b.
Proof.
  intros Hne H. induction H as [|x l Hx Hl IH]; [congruence|].
  rewrite Rsum_cons. cbn [List.length]. rewrite S_INR.
  destruct l as [|y l].
  - cbn [List.length INR pd.Rsum fold_right]. lra.
  - assert (Hl' : y :: l <> []) by discriminate.
    specialize (IH Hl'). lra.
Qed.

Lemma Rmean_bounds (a b : R) (l : list R) :
  l <> [] ->
  Forall (fun x => a <= x < b) l ->
  a <= pd.Rmean l < b.
Proof.
  intros Hne H. pose proof (Rsum_bounds Hne H) as [Hlo Hhi].
  unfold pd.Rmean.
  assert (Hn : 0 < INR (List.length l)).
  { apply lt_0_INR. destruct l; [congruence|cbn; lia]. }
  split.
  - apply Rmult_le_reg_r with (r := INR (List.length l)); [exact Hn|].
    replace (pd.Rsum l / INR (List.length l) * INR (List.length l))
      with (pd.Rsum l) by (field; lra). lra.
  - apply Rmult_lt_reg_r with (r := INR (List.length l)); [exact Hn|].
    replace (pd.Rsum l / INR (List.length l) * INR (List.length l))
      with (pd.Rsum l) by (field; lra). lra.
Qed.

Lemma group_values_incl (A : Type) (ks : list pd.key) (v : list A)
  (g : pd.key) (x : A) :
  In x (pd.group_values ks v g) -> In x v.
Proof.
  unfold pd.group_values. rewrite in_map_iff.
  intros ([k y] & <- & Hin). apply filter_In in Hin.
  destruct Hin as [Hin _]. cbn [snd]. eapply in_combine_r, Hin.
Qed.

Lemma group_values_Forall (A : Type) (P : A -> Prop) (ks : list pd.key)
  (v : list A) (g : pd.key) :
  Forall P v -> Forall P (pd.group_values ks v g).
Proof.
  rewrite !Forall_forall. intros H x Hx.
  eapply H, group_values_incl, Hx.
Qed.

(** The group of a key that stands in some row is not empty. *)
Lemma group_values_nonempty (A : Type) (ks : list pd.key) (v : list A)
  (g : pd.key) :
  List.length ks = List.length v -> In g ks ->
  pd.group_values ks v g <> [].
Proof.
  revert v. induction ks as [|k ks IH]; intros v Hlen Hin; [easy|].
  destruct v as [|x v]; [discriminate|].
  rewrite group_values_cons. destruct (pd.key_eqb k g) eqn:E; [discriminate|].
  apply IH; [now injection Hlen|].
  destruct Hin as [-> | Hin]; [|exact Hin].
  rewrite key_eqb_refl in E. discriminate.
Qed.
End Grouping.

(* ================================================================== *)
(** ** numpy's generator keeps to the documented ranges *)

Section MT19937Laws.
Local Open Scope Z_scope.

Lemma uint32_range x : 0 <= MT19937.uint32 x < 4294967296.
Proof.
  unfold MT19937.uint32. change 0xffffffff with (Z.ones 32).
  rewrite Z.land_ones by lia. apply Z.mod_pos_bound. lia.
Qed.

Lemma mt19937_next_range s : 0 <= fst (MT19937.mt19937_next s) < 4294967296.
Proof. unfold MT19937.mt19937_next. cbn [fst]. apply uint32_range. Qed.

Lemma bounded_masked_range fuel next rng mask s :
  0 <= rng -> 0 <= mask ->
  0 <= fst (MT19937.bounded_masked fuel next rng mask s) <= rng.
Proof.
  intros Hr Hm. revert s.
  induction fuel as [|fuel IH]; intros s; cbn [MT19937.bounded_masked];
    destruct (next s) as [v s'];
    destruct (Z.leb_spec (Z.land v mask) rng) as [Hle|Hgt]; cbn [fst];
    try (split; [apply Z.land_nonneg; now right | exact Hle]).
  - lia.
  - apply IH.
Qed.

Lemma gen_mask_nonneg rng : 0 <= MT19937.gen_mask rng.
Proof.
  unfold MT19937.gen_mask. rewrite Z.ones_equiv.
  pose proof (Z.log2_nonneg rng).
  pose proof (Z.pow_pos_nonneg 2 (Z.log2 rng + 1)). lia.
Qed.

Lemma random_bounded_uint64_range off rng s :
  0 <= rng ->
  off <= fst (MT19937.random_bounded_uint64 off rng s) <= off + rng.
Proof.
  intros Hr. unfold MT19937.random_bounded_uint64.
  destruct (Z.leb_spec rng 0); [cbn [fst]; lia|].
  destruct (Z.ltb_spec rng 0xffffffff).
  - pose proof (@bounded_masked_range 1024 MT19937.mt19937_next rng
                  (MT19937.gen_mask rng) s Hr (gen_mask_nonneg rng)) as Hb.
    destruct (MT19937.bounded_masked 1024 MT19937.mt19937_next rng
                (MT19937.gen_mask rng) s) as [v s'].
    cbn [fst] in *. lia.
  - destruct (Z.eqb_spec rng 0xffffffff) as [-> |].
    + pose proof (mt19937_next_range s) as Hb.
      destruct (MT19937.mt19937_next s) as [v s']. cbn [fst] in *. lia.
    + pose proof (@bounded_masked_range 1024 MT19937.mt19937_next64 rng
                    (MT19937.gen_mask rng) s Hr (gen_mask_nonneg rng)) as Hb.
      destruct (MT19937.bounded_masked 1024 MT19937.mt19937_next64 rng
                  (MT19937.gen_mask rng) s) as [v s'].
      cbn [fst] in *. lia.
Qed.

Lemma mt19937_next_double_range s :
  (0 <= fst (MT19937.mt19937_next_double s) < 1)%R.
Proof.
  unfold MT19937.mt19937_next_double.
  pose proof (mt19937_next_range s) as Ha.
  destruct (MT19937.mt19937_next s) as [a s1]. cbn [fst] in Ha.
  pose proof (mt19937_next_range s1) as Hb.
  destruct (MT19937.mt19937_next s1) as [b s2]. cbn [fst] in Hb |- *.
  rewrite !Z.shiftr_div_pow2 by lia.
  change (2 ^ 5) with 32. change (2 ^ 6) with 64.
  assert (H : 0 <= a / 32 * 67108864 + b / 64 < 9007199254740992).
  { pose proof (Z.div_pos a 32 ltac:(lia) ltac:(lia)).
    pose proof (Z.div_pos b 64 ltac:(lia) ltac:(lia)).
    assert (a / 32 < 134217728) by (apply Z.div_lt_upper_bound; lia).
    assert (b / 64 < 67108864) by (apply Z.div_lt_upper_bound; lia).
    lia. }
  destruct H as [H0 H1]. apply IZR_le in H0. apply IZR_lt in H1.
  split.
  - apply Rmult_le_pos; [exact H0|]. apply Rlt_le, Rinv_0_lt_compat. lra.
  - apply Rmult_lt_reg_r with 9007199254740992%R; [lra|].
    unfold Rdiv. rewrite Rmult_assoc, Rinv_l by lra. lra.
Qed.

Lemma mt19937_laws : RandomStateLaws mt19937.
Proof.
  split.
  - intros low high s H. cbn [rng_randint mt19937].
    assert (Hr : 0 <= high - 1 - low) by lia.
    destruct (@random_bounded_uint64_range low (high - 1 - low) s Hr)
      as [Hlo Hhi].
    split; [exact Hlo|]. eapply Z.le_lt_trans; [exact Hhi|lia].
  - intros s. apply mt19937_next_double_range.
Qed.
End MT19937Laws.

(* ================================================================== *)
(** ** Running the generator *)

Lemma bind_ok {S A B : Type} (c : M S A) (k : A -> M S B) s a s' :
  c s = (Ok a, s') -> bind c k s = k a s'.
Proof. intros H. unfold bind. rewrite H. reflexivity. Qed.

Lemma lift_run {S A : Type} (r : result A) (s : S) : lift r s = (r, s).
Proof. reflexivity. Qed.

Section Pipeline.
Context {RS : RandomState}.
Local Open Scope string_scope.
Local Open Scope py_scope.

Lemma draw_length {A : Type} n (next : rng_state -> A * rng_state) s :
  List.length (fst (np.draw n next s)) = n.
Proof.
  revert s. induction n as [|n IH]; intros s; simpl; [reflexivity|].
  destruct (next s) as [x s1]. specialize (IH s1).
  destruct (np.draw n next s1) as [xs s2]. simpl in *. now rewrite IH.
Qed.

Lemma random_randint_run low high size s :
  (0 < size)%Z -> (low < high)%Z ->
  np.random_randint low high size s =
  (Ok (fst (np.draw (Z.to_nat size) (rng_randint low high) s)),
   snd (np.draw (Z.to_nat size) (rng_randint low high) s)).
Proof.
  intros Hs Hl. unfold np.random_randint.
  destruct (Z.ltb_spec size 0); [lia|].
  destruct (Z.eqb_spec size 0); [lia|].
  destruct (Z.leb_spec high low); [lia|]. reflexivity.
Qed.

Lemma date_range_run : pd.date_range "2023-01-01" 100 = Ok the_date.
Proof. reflexivity. Qed.

Lemma linspace_run : np.linspace 0 10 100 = Ok the_wave.
Proof. reflexivity. Qed.


Lemma random_uniform_run low high size s :
  (0 <= size)%Z ->
  np.random_uniform low high size s =
  (Ok (fst (np.draw (Z.to_nat size) (np.uniform_next low high) s)),
   snd (np.draw (Z.to_nat size) (np.uniform_next low high) s)).
Proof.
  intros Hs. unfold np.random_uniform.
  destruct (Z.ltb_spec size 0); [lia|]. reflexivity.
Qed.

Lemma random_choice_run a0 a size s :
  (0 < size)%Z ->
  np.random_choice (a0 :: a) size s =
  (Ok (map (fun i => nth (Z.to_nat i) (a0 :: a) EmptyString)
         (fst (np.draw (Z.to_nat size)
                 (rng_randint 0 (Z.of_nat (List.length (a0 :: a)))) s))),
   snd (np.draw (Z.to_nat size)
          (rng_randint 0 (Z.of_nat (List.length (a0 :: a)))) s)).
Proof.
  intros Hs. unfold np.random_choice.
  rewrite random_randint_run by (simpl List.length; lia).
  reflexivity.
Qed.


Ltac step v st tac :=
  match goal with
  | |- bind ?c ?k ?s = _ =>
      let H := fresh "Hstep" in
      assert (H : c s = (Ok v, st)) by tac;
      rewrite (@bind_ok _ _ _ c k s v st H); clear H; cbv beta
  end.

Lemma np_add_run a b :
  List.length a = List.length b ->
  np.add a b = Ok (map (fun p => (IZR (fst p) + snd p)%R) (combine a b)).
Proof. intros H. unfold np.add. rewrite H, Nat.eqb_refl. reflexivity. Qed.

Lemma drawn_sales_base_length : List.length (fst drawn_sales_base) = 100%nat.
Proof. apply draw_length. Qed.
Lemma drawn_customers_length : List.length (fst drawn_customers) = 100%nat.
Proof. apply draw_length. Qed.
Lemma drawn_avg_purchase_length : List.length (fst drawn_avg_purchase) = 100%nat.
Proof. apply draw_length. Qed.
Lemma the_category_length : List.length the_category = 100%nat.
Proof. unfold the_category. rewrite length_map. apply draw_length. Qed.
Lemma the_region_length : List.length the_region = 100%nat.
Proof. unfold the_region. rewrite length_map. apply draw_length. Qed.
Lemma the_date_length : List.length the_date = 100%nat.
Proof. reflexivity. Qed.
Lemma the_swing_length :
  List.length (np.mul_scalar (np.sin the_wave) 50) = 100%nat.
Proof. reflexivity. Qed.
Lemma the_sales_length : List.length the_sales = 100%nat.
Proof.
  unfold the_sales. rewrite length_map, length_combine.
  rewrite drawn_sales_base_length, the_swing_length. reflexivity.
Qed.
Lemma the_revenue_length : List.length the_revenue = 100%nat.
Proof.
  unfold the_revenue. rewrite length_map, length_combine.
  rewrite the_sales_length, drawn_avg_purchase_length. reflexivity.
Qed.
Lemma the_year_month_length : List.length the_year_month = 100%nat.
Proof. unfold the_year_month. rewrite length_map. apply the_date_length. Qed.

Lemma assemble_run (S : Type) (st : S) (n : nat)
  (dt : list Timestamp.t) (sl : list R) (cu : list Z) (av : list R)
  (ca rg : list string) :
  List.length dt = n -> List.length sl = n -> List.length cu = n ->
  List.length av = n -> List.length ca = n -> List.length rg = n ->
  (df <- lift (pd.DataFrame_of_dict
                [("date", pd.Datetime64 dt);
                 ("sales", pd.Float64 sl);
                 ("customers", pd.Int64 cu);
                 ("avg_purchase", pd.Float64 av);
                 ("category", pd.Object ca);
                 ("region", pd.Object rg)]) ;;
   df <- lift (s <~ pd.getitem df "sales" ;;
              a <~ pd.getitem df "avg_purchase" ;;
              revenue <~ pd.mul s a ;;
              pd.setitem df "revenue" revenue) ;;
   df <- lift (d <~ pd.getitem df "date" ;;
              year_month <~ pd.dt_strftime d "%Y-%m" ;;
              pd.setitem df "year_month" year_month) ;;
   ret df)%py st =
  (Ok [("date", pd.Datetime64 dt);
       ("sales", pd.Float64 sl);
       ("customers", pd.Int64 cu);
       ("avg_purchase", pd.Float64 av);
       ("category", pd.Object ca);
       ("region", pd.Object rg);
       ("revenue",
        pd.Float64 (map (fun p => (fst p * snd p)%R) (combine sl av)));
       ("year_month", pd.Object (map (Timestamp.strftime "%Y-%m") dt))],
   st).
Proof.
  intros Hdt Hsl Hcu Hav Hca Hrg.
  unfold bind, lift, ret, pd.DataFrame_of_dict.
  cbn [forallb snd fst pd.len pd.nrows].
  rewrite Hdt, Hsl, Hcu, Hav, Hca, Hrg, Nat.eqb_refl.
  cbn [andb fst snd].
  cbn [pd.getitem String.eqb Ascii.eqb Bool.eqb rbind pd.mul pd.as_float].
  rewrite Hsl, Hav, Nat.eqb_refl.
  cbn [rbind pd.setitem pd.len pd.nrows].
  rewrite length_map, length_combine, Hsl, Hav, Nat.min_id, Hdt, Nat.eqb_refl.
  cbn [pd.assign String.eqb Ascii.eqb Bool.eqb fst snd pd.getitem rbind
       pd.dt_strftime pd.setitem pd.len pd.nrows].
  rewrite length_map, Hdt, Nat.eqb_refl.
  reflexivity.
Qed.

Lemma generate_data_run s :
  generate_data s = (Ok the_dataset, snd drawn_region).
Proof.
  unfold generate_data.
  step tt (rng_seed 42) reflexivity.
  step the_date (rng_seed 42) ltac:(rewrite lift_run, date_range_run; reflexivity).
  step (fst drawn_sales_base) (snd drawn_sales_base)
       ltac:(apply random_randint_run; lia).
  step the_wave (snd drawn_sales_base)
       ltac:(rewrite lift_run, linspace_run; reflexivity).
  step the_sales (snd drawn_sales_base)
       ltac:(rewrite lift_run, np_add_run
               by (rewrite drawn_sales_base_length; symmetry; apply the_swing_length);
             unfold the_sales; reflexivity).
  step (fst drawn_customers) (snd drawn_customers)
       ltac:(apply random_randint_run; lia).
  step (fst drawn_avg_purchase) (snd drawn_avg_purchase)
       ltac:(apply random_uniform_run; lia).
  step the_category (snd drawn_category)
       ltac:(apply (random_choice_run "A" ["B"; "C"; "D"]); lia).
  step the_region (snd drawn_region)
       ltac:(apply (random_choice_run "East" ["West"; "North"; "South"]); lia).
  apply (@assemble_run _ (snd drawn_region) 100%nat).
  - apply the_date_length.
  - apply the_sales_length.
  - apply drawn_customers_length.
  - apply drawn_avg_purchase_length.
  - apply the_category_length.
  - apply the_region_length.
Qed.

(* ================================================================== *)
(** ** The rows of the table *)


Lemma row_the_dataset i : i < 100 -> row the_dataset i = Some (the_row i).
Proof.
  intros Hi. unfold row, datetime_at, float_at, int_at, object_at, the_dataset.
  cbn [pd.getitem String.eqb Ascii.eqb Bool.eqb].
  rewrite (nth_error_nth' the_date 0%Z) by (rewrite the_date_length; exact Hi).
  rewrite (nth_error_nth' the_sales 0%R) by (rewrite the_sales_length; exact Hi).
  rewrite (nth_error_nth' (fst drawn_customers) 0%Z)
    by (rewrite drawn_customers_length; exact Hi).
  rewrite (nth_error_nth' (fst drawn_avg_purchase) 0%R)
    by (rewrite drawn_avg_purchase_length; exact Hi).
  rewrite (nth_error_nth' the_category "")
    by (rewrite the_category_length; exact Hi).
  rewrite (nth_error_nth' the_region "")
    by (rewrite the_region_length; exact Hi).
  rewrite (nth_error_nth' the_revenue 0%R)
    by (rewrite the_revenue_length; exact Hi).
  rewrite (nth_error_nth' the_year_month "")
    by (rewrite the_year_month_length; exact Hi).
  reflexivity.
Qed.

Lemma row_the_dataset_inv i r : row the_dataset i = Some r -> i < 100.
Proof.
  intros H. destruct (Nat.lt_ge_cases i 100) as [Hi|Hi]; [exact Hi|].
  exfalso. unfold row, datetime_at, the_dataset in H.
  cbn [pd.getitem String.eqb Ascii.eqb Bool.eqb] in H.
  assert (Hn : nth_error the_date i = None)
    by (apply nth_error_None; rewrite the_date_length; exact Hi).
  rewrite Hn in H. discriminate H.
Qed.

Lemma nrows_the_dataset : pd.nrows the_dataset = 100.
Proof. reflexivity. Qed.

Lemma rows_the_dataset : rows the_dataset = map the_row (seq 0 100).
Proof.
  unfold rows. rewrite nrows_the_dataset.
  assert (H : forall l, (forall i, In i l -> i < 100) ->
    flat_map (fun i => match row the_dataset i with
                       | Some r => [r] | None => [] end) l = map the_row l).
  { induction l as [|i l IH]; intros Hl; [reflexivity|].
    cbn [flat_map map]. rewrite row_the_dataset by (apply Hl; now left).
    rewrite IH by (intros j Hj; apply Hl; now right). reflexivity. }
  apply H. intros i Hi. apply in_seq in Hi. lia.
Qed.
(* ================================================================== *)
(** ** Running the script *)


Ltac run_groupby :=
  unfold pd.groupby_agg, pd.groupby;
  rewrite nrows_the_dataset; unfold the_dataset;
  cbn [pd.key_columns pd.getitem String.eqb Ascii.eqb Bool.eqb rbind
       pd.as_object pd.aggregate pd.reduce pd.obj pd.keys pd.groups pd.by_
       pd.reset_index pd.index_columns app];
  unfold the_region_sales, the_category_avg, the_heatmap_data,
    the_groups, the_keys;
  reflexivity.

Lemma region_sales_run :
  pd.groupby_agg the_dataset ["region"] ["sales"] pd.Sum
  = Ok the_region_sales.
Proof. run_groupby. Qed.

Lemma category_avg_run :
  pd.groupby_agg the_dataset ["category"]
    ["sales"; "customers"; "avg_purchase"] pd.Mean
  = Ok the_category_avg.
Proof. run_groupby. Qed.

Lemma heatmap_data_run :
  pd.groupby_agg the_dataset ["year_month"; "category"] ["sales"] pd.Sum
  = Ok the_heatmap_data.
Proof. run_groupby. Qed.

Lemma charts_run (w : World) :
  (region_sales <-
     lift (pd.groupby_agg the_dataset ["region"] ["sales"] pd.Sum) ;;
   category_avg <-
     lift (pd.groupby_agg the_dataset ["category"]
             ["sales"; "customers"; "avg_purchase"] pd.Mean) ;;
   heatmap_data <-
     lift (pd.groupby_agg the_dataset ["year_month"; "category"]
             ["sales"] pd.Sum) ;;
   ret {| data := the_dataset; region_sales := region_sales;
          category_avg := category_avg;
          heatmap_data := heatmap_data |})%py w
  = (Ok the_page, w).
Proof.
  unfold bind. rewrite region_sales_run, category_avg_run, heatmap_data_run.
  reflexivity.
Qed.

(** A first run computes the table and caches it. *)
Lemma app_fresh s : app (fresh s) = (Ok the_page, warm (snd drawn_region)).
Proof.
  unfold app.
  assert (H : st_cache_data generate_data (fresh s)
              = (Ok the_dataset, warm (snd drawn_region))).
  { unfold st_cache_data, fresh. cbn [generate_data_cache np_random].
    rewrite generate_data_run. reflexivity. }
  rewrite (@bind_ok _ _ _ _ _ _ _ _ H). apply charts_run.
Qed.

(** A later run takes the table from the cache and changes nothing. *)
Lemma app_warm s : app (warm s) = (Ok the_page, warm s).
Proof.
  unfold app.
  assert (H : st_cache_data generate_data (warm s) = (Ok the_dataset, warm s))
    by reflexivity.
  rewrite (@bind_ok _ _ _ _ _ _ _ _ H). apply charts_run.
Qed.

(** Every world of a session is fresh or holds the table. *)
Lemma reachable_inv w :
  reachable w -> (exists s, w = fresh s) \/ (exists s, w = warm s).
Proof.
  induction 1 as [s | w _ IH | w s _ IH].
  - left. now exists s.
  - right. destruct IH as [[s ->] | [s ->]].
    + rewrite app_fresh. now eexists.
    + rewrite app_warm. now eexists.
  - destruct IH as [[s0 ->] | [s0 ->]].
    + left. now exists s.
    + right. now exists s.
Qed.

Lemma app_reachable w :
  reachable w -> exists w', app w = (Ok the_page, w').
Proof.
  intros H. destruct (reachable_inv H) as [[s ->] | [s ->]].
  - rewrite app_fresh. now eexists.
  - rewrite app_warm. now eexists.
Qed.

(* ================================================================== *)
(** ** The table: rows, dates and derived fields *)


Lemma has_rows_the_dataset : has_rows the_dataset 100.
Proof.
  split; [reflexivity|]. split.
  - intros i Hi. exists (the_row i). now apply row_the_dataset.
  - intros i r. apply row_the_dataset_inv.
Qed.

Lemma row_the_dataset_eq i r : row the_dataset i = Some r -> r = the_row i.
Proof.
  intros H. pose proof (row_the_dataset_inv _ H) as Hi.
  rewrite (row_the_dataset Hi) in H. now injection H.
Qed.

Lemma nth_the_revenue i :
  i < 100 ->
  nth i the_revenue 0%R
  = (nth i the_sales 0 * nth i (fst drawn_avg_purchase) 0)%R.
Proof.
  intros Hi. unfold the_revenue.
  apply (@nth_map_combine _ _ _ (fun p => (fst p * snd p)%R)
           the_sales (fst drawn_avg_purchase) i 0%R 0%R 0%R).
  - rewrite the_sales_length. symmetry. apply drawn_avg_purchase_length.
  - now rewrite the_sales_length.
Qed.

Lemma revenue_derived_the_dataset : revenue_derived the_dataset.
Proof.
  intros i r H. pose proof (row_the_dataset_inv _ H) as Hi.
  rewrite (row_the_dataset_eq _ H). cbn [revenue sales avg_purchase the_row].
  now apply nth_the_revenue.
Qed.

Lemma recomputed_revenue_the_dataset :
  recomputed_revenue the_dataset = pd.getitem the_dataset "revenue".
Proof.
  unfold recomputed_revenue, the_dataset.
  cbn [pd.getitem String.eqb Ascii.eqb Bool.eqb rbind pd.mul pd.as_float].
  rewrite the_sales_length, drawn_avg_purchase_length.
  reflexivity.
Qed.

(** C1: in every row of the table the script works on, [revenue] equals
    [sales * avg_purchase]; the column is what the product of the two
    source columns evaluates to, and after the three aggregations have
    run, and on every later run of the session, the table is still the
    same one. *)
Theorem C1_revenue_is_sales_times_avg_purchase (w : World) :
  reachable w ->
  exists page w',
    app w = (Ok page, w') /\
    has_rows (data page) 100 /\
    revenue_derived (data page) /\
    recomputed_revenue (data page) = pd.getitem (data page) "revenue" /\
    fst (app w') = Ok page.
Proof.
  intros Hw. destruct (app_reachable Hw) as [w' Happ].
  exists the_page, w'. split; [exact Happ|].
  split; [exact has_rows_the_dataset|].
  split; [exact revenue_derived_the_dataset|].
  split; [exact recomputed_revenue_the_dataset|].
  assert (Hw' : reachable w').
  { replace w' with (snd (app w)) by now rewrite Happ.
    now apply reachable_run. }
  destruct (app_reachable Hw') as [w'' Happ']. now rewrite Happ'.
Qed.

(** *** The date column *)

Lemma ymd_eqb_eq a b : Calendar.ymd_eqb a b = true -> a = b.
Proof.
  destruct a as [[y m] d], b as [[y' m'] d']. unfold Calendar.ymd_eqb.
  rewrite !andb_true_iff, !Z.eqb_eq. intros [[-> ->] ->]. reflexivity.
Qed.

Lemma nth_the_date i :
  i < 100 ->
  nth i the_date 0%Z = (epoch + Z.of_nat i * Calendar.ns_per_day)%Z.
Proof. intros Hi. unfold the_date. now rewrite nth_map_seq. Qed.

Lemma the_date_next_day i :
  S i < 100 ->
  Timestamp.ymd (nth (S i) the_date 0%Z)
  = Calendar.next_day (Timestamp.ymd (nth i the_date 0%Z)).
Proof.
  intros Hi. apply ymd_eqb_eq.
  apply (forallb_seq
           (fun i => Calendar.ymd_eqb
                       (Timestamp.ymd (nth (S i) the_date 0%Z))
                       (Calendar.next_day
                          (Timestamp.ymd (nth i the_date 0%Z))))
           (n := 99)); [vm_compute; reflexivity | lia].
Qed.

Lemma consecutive_days_the_date : consecutive_days the_date.
Proof.
  intros i Hi. rewrite the_date_length in Hi. split.
  - rewrite !nth_the_date by lia. lia.
  - now apply the_date_next_day.
Qed.

Lemma strictly_increasing_the_date : strictly_increasing the_date.
Proof.
  intros i j [Hij Hj]. rewrite the_date_length in Hj.
  rewrite !nth_the_date by lia. unfold Calendar.ns_per_day. lia.
Qed.

Lemma NoDup_the_date : NoDup the_date.
Proof.
  apply (NoDup_nth the_date 0%Z). intros i j Hi Hj Heq.
  rewrite the_date_length in Hi, Hj.
  destruct (Nat.lt_trichotomy i j) as [H | [H | H]]; [|exact H|].
  - pose proof (@strictly_increasing_the_date i j) as Hlt.
    rewrite the_date_length in Hlt. specialize (Hlt (conj H Hj)). lia.
  - pose proof (@strictly_increasing_the_date j i) as Hlt.
    rewrite the_date_length in Hlt. specialize (Hlt (conj H Hi)). lia.
Qed.

(** C2: the [date] column of the generated table holds exactly 100
    timestamps; the first is the parsed epoch 2023-01-01, each next one
    is one day later and is the following calendar day, so the column
    is strictly increasing and has no duplicates. *)
Theorem C2_date_column_is_100_consecutive_days (s : rng_state) :
  exists df s' ds,
    generate_data s = (Ok df, s') /\
    pd.getitem df "date" = Ok (pd.Datetime64 ds) /\
    List.length ds = 100 /\
    Timestamp.parse "2023-01-01" = Ok (nth 0 ds 0%Z) /\
    Timestamp.ymd (nth 0 ds 0%Z) = (2023, 1, 1)%Z /\
    Timestamp.ymd (nth 99 ds 0%Z) = (2023, 4, 10)%Z /\
    consecutive_days ds /\
    strictly_increasing ds /\
    NoDup ds.
Proof.
  exists the_dataset, (snd drawn_region), the_date.
  split; [apply generate_data_run|].
  split; [reflexivity|].
  split; [apply the_date_length|].
  split; [reflexivity|].
  split; [vm_compute; reflexivity|].
  split; [vm_compute; reflexivity|].
  split; [apply consecutive_days_the_date|].
  split; [apply strictly_increasing_the_date | apply NoDup_the_date].
Qed.

(** *** The year_month column *)

Lemma string_append_empty (x : string) : (x ++ "")%string = x.
Proof. induction x as [|c x IH]; [reflexivity|]. cbn. now rewrite IH. Qed.

Lemma strftime_year_month ts :
  Timestamp.strftime "%Y-%m" ts = year_month_label ts.
Proof.
  unfold year_month_label.
  change (Timestamp.strftime "%Y-%m" ts)
    with (Timestamp.zero_padded 4 (Timestamp.year ts)
          ++ String "-" (Timestamp.zero_padded 2 (Timestamp.month ts) ++ ""))%string.
  now rewrite string_append_empty.
Qed.

Lemma nth_the_year_month i :
  i < 100 ->
  nth i the_year_month "" = Timestamp.strftime "%Y-%m" (nth i the_date 0%Z).
Proof.
  intros Hi. unfold the_year_month.
  apply nth_map_in. now rewrite the_date_length.
Qed.

Lemma the_year_month_truncates i :
  i < 100 ->
  Timestamp.strftime "%Y-%m" (month_start (nth i the_date 0%Z))
  = Timestamp.strftime "%Y-%m" (nth i the_date 0%Z)
  /\ String.length (Timestamp.strftime "%Y-%m" (nth i the_date 0%Z)) = 7.
Proof.
  intros Hi.
  pose proof (forallb_seq
    (fun i =>
       String.eqb
         (Timestamp.strftime "%Y-%m" (month_start (nth i the_date 0%Z)))
         (Timestamp.strftime "%Y-%m" (nth i the_date 0%Z))
       && Nat.eqb
            (String.length (Timestamp.strftime "%Y-%m" (nth i the_date 0%Z)))
            7) (n := 100)) as H.
  specialize (H ltac:(vm_compute; reflexivity) i Hi). cbv beta in H.
  apply andb_true_iff in H. destruct H as [H1 H2].
  split; [now apply String.eqb_eq | now apply Nat.eqb_eq].
Qed.

(** C8: in every row of the generated table, [year_month] is the label
    YYYY-MM of the row's date, which is also the label of the first day
    of that date's month, seven characters long; a row dated 2023-01-15
    carries the label 2023-01, and row 14 is such a row. *)
Theorem C8_year_month_is_date_truncated_to_month (s : rng_state) :
  exists df s',
    generate_data s = (Ok df, s') /\
    has_rows df 100 /\
    (forall i r, row df i = Some r ->
       year_month r = year_month_label (date r) /\
       year_month r = Timestamp.strftime "%Y-%m" (month_start (date r)) /\
       String.length (year_month r) = 7) /\
    (forall i r, row df i = Some r ->
       Timestamp.ymd (date r) = (2023, 1, 15)%Z -> year_month r = "2023-01") /\
    (exists r, row df 14 = Some r /\
               Timestamp.ymd (date r) = (2023, 1, 15)%Z).
Proof.
  exists the_dataset, (snd drawn_region).
  split; [apply generate_data_run|].
  split; [apply has_rows_the_dataset|].
  assert (Hlabel : forall i r, row the_dataset i = Some r ->
            i < 100 /\ date r = nth i the_date 0%Z /\
            year_month r = Timestamp.strftime "%Y-%m" (nth i the_date 0%Z)).
  { intros i r H. pose proof (row_the_dataset_inv _ H) as Hi.
    rewrite (row_the_dataset_eq _ H). cbn [date year_month the_row].
    split; [exact Hi|]. split; [reflexivity|]. now apply nth_the_year_month. }
  split; [|split].
  - intros i r H. destruct (Hlabel i r H) as (Hi & Hd & Hym).
    destruct (the_year_month_truncates Hi) as [Ht Hlen].
    rewrite Hym, Hd. split; [apply strftime_year_month|].
    split; [now rewrite Ht | exact Hlen].
  - intros i r H Hymd. destruct (Hlabel i r H) as (Hi & Hd & Hym).
    rewrite Hym, <- Hd, strftime_year_month.
    unfold year_month_label, Timestamp.year, Timestamp.month.
    rewrite Hymd. reflexivity.
  - exists (the_row 14). split; [apply row_the_dataset; lia|].
    cbn [date the_row]. vm_compute. reflexivity.
Qed.

(** *** The sales column *)

Lemma draw_Forall (A : Type) (P : A -> Prop)
  (next : rng_state -> A * rng_state) :
  (forall s, P (fst (next s))) ->
  forall n s, Forall P (fst (np.draw n next s)).
Proof.
  intros Hnext. induction n as [|n IH]; intros s; cbn [np.draw].
  - constructor.
  - pose proof (Hnext s) as Hx. specialize (IH (snd (next s))).
    destruct (next s) as [x s1]. cbn [fst snd] in *.
    destruct (np.draw n next s1) as [xs s2]. cbn [fst] in *.
    now constructor.
Qed.

Lemma nth_the_wave i :
  i < 100 -> nth i the_wave 0%R = (10 * INR i / 99)%R.
Proof.
  intros Hi. unfold the_wave. rewrite map_map, nth_map_seq by exact Hi.
  rewrite (INR_IZR_INZ 99). change (Z.of_nat 99) with 99%Z. field.
Qed.

Lemma nth_the_sales i :
  i < 100 ->
  nth i the_sales 0%R
  = (IZR (nth i (fst drawn_sales_base) 0%Z) + 50 * sin (10 * INR i / 99))%R.
Proof.
  intros Hi. unfold the_sales.
  rewrite (@nth_map_combine _ _ _ (fun p => (IZR (fst p) + snd p)%R)
             (fst drawn_sales_base) (np.mul_scalar (np.sin the_wave) 50)
             i 0%Z 0%R 0%R).
  - cbn [fst snd]. unfold np.mul_scalar, np.sin.
    rewrite map_map.
    rewrite (@nth_map_in _ _ (fun x => (Rtrigo_def.sin x * 50)%R)
               the_wave i 0%R 0%R) by (unfold the_wave;
                 now rewrite !length_map, length_seq).
    rewrite nth_the_wave by exact Hi. ring.
  - rewrite drawn_sales_base_length. symmetry. apply the_swing_length.
  - now rewrite drawn_sales_base_length.
Qed.

Section WithLaws.
Hypothesis laws : RandomStateLaws RS.

Lemma drawn_sales_base_range i :
  i < 100 -> (100 <= nth i (fst drawn_sales_base) 0 < 500)%Z.
Proof.
  intros Hi.
  assert (H : Forall (fun b => (100 <= b < 500)%Z) (fst drawn_sales_base)).
  { apply draw_Forall. intros s. apply (randint_in_range laws). lia. }
  rewrite Forall_forall in H. apply H, nth_In.
  now rewrite drawn_sales_base_length.
Qed.

Lemma drawn_avg_purchase_range i :
  i < 100 -> (10 <= nth i (fst drawn_avg_purchase) 0 < 50)%R.
Proof.
  intros Hi.
  assert (H : Forall (fun a => (10 <= a < 50)%R) (fst drawn_avg_purchase)).
  { apply draw_Forall. intros s. unfold np.uniform_next. cbn [fst].
    pose proof (random_sample_in_range laws s). lra. }
  rewrite Forall_forall in H. apply H, nth_In.
  now rewrite drawn_avg_purchase_length.
Qed.

(** C3 (amended): row [i] of the generated table has
    [sales = b + 50 * sin (10 * i / 99)], where [b] is the [i]-th of the
    100 integers drawn by [randint(100, 500)] right after [seed(42)]: the
    sine is taken at 100 evenly spaced points from 0 to 10 radians. *)
Theorem C3_sales_is_base_plus_sine_wave (s : rng_state) :
  exists df s',
    generate_data s = (Ok df, s') /\
    forall i, i < 100 ->
      exists b r,
        nth_error (fst drawn_sales_base) i = Some b /\
        (100 <= b < 500)%Z /\
        row df i = Some r /\
        sales r = (IZR b + 50 * sin (10 * INR i / 99))%R.
Proof.
  exists the_dataset, (snd drawn_region).
  split; [apply generate_data_run|].
  intros i Hi.
  exists (nth i (fst drawn_sales_base) 0%Z), (the_row i).
  split; [apply nth_error_nth'; now rewrite drawn_sales_base_length|].
  split; [now apply drawn_sales_base_range|].
  split; [now apply row_the_dataset|].
  cbn [sales the_row]. now apply nth_the_sales.
Qed.

(** C10: in every row of the generated table [sales] is at least 50,
    [avg_purchase] at least 10, and so [revenue] is strictly positive. *)
Theorem C10_revenue_is_positive (s : rng_state) :
  exists df s',
    generate_data s = (Ok df, s') /\
    has_rows df 100 /\
    forall i r, row df i = Some r ->
      (50 <= sales r)%R /\ (10 <= avg_purchase r)%R /\ (0 < revenue r)%R.
Proof.
  exists the_dataset, (snd drawn_region).
  split; [apply generate_data_run|].
  split; [apply has_rows_the_dataset|].
  intros i r H. pose proof (row_the_dataset_inv _ H) as Hi.
  rewrite (row_the_dataset_eq _ H). cbn [sales avg_purchase revenue the_row].
  rewrite nth_the_revenue by exact Hi.
  assert (Hs : (50 <= nth i the_sales 0)%R).
  { rewrite nth_the_sales by exact Hi.
    pose proof (drawn_sales_base_range Hi) as [Hb _].
    apply IZR_le in Hb.
    pose proof (SIN_bound (10 * INR i / 99)) as [Hsin _]. lra. }
  pose proof (drawn_avg_purchase_range Hi) as [Ha _].
  split; [exact Hs|]. split; [exact Ha|].
  apply Rmult_lt_0_compat; lra.
Qed.
End WithLaws.

(** *** Determinism and the cache *)

Lemma st_cache_data_fresh s :
  st_cache_data generate_data (fresh s)
  = (Ok the_dataset, warm (snd drawn_region)).
Proof.
  unfold st_cache_data, fresh. cbn [generate_data_cache np_random].
  rewrite generate_data_run. reflexivity.
Qed.

Lemma st_cache_data_warm (body : M rng_state pd.DataFrame) s :
  st_cache_data body (warm s) = (Ok the_dataset, warm s).
Proof. reflexivity. Qed.

(** C7 (amended): generation does not depend on the state the global
    generator is in when it starts: two fresh processes get tables with
    the same rows.  Within a session a second call returns the cached
    table whatever the body would compute, so the body is not run, and
    leaves the world untouched; a second run of the script gives the same
    page as the first.  The object the caller gets is a new one on every
    call: two calls in a session return two distinct objects that hold
    equal tables. *)
Theorem C7_generation_is_deterministic_and_memoized (s1 s2 : rng_state) :
  exists df page,
    fst (st_cache_data generate_data (fresh s1)) = Ok df /\
    fst (st_cache_data generate_data (fresh s2)) = Ok df /\
    (forall (body : M rng_state pd.DataFrame) (s' : rng_state),
       let w1 := snd (st_cache_data generate_data (fresh s1)) in
       let w := {| np_random := s';
                   generate_data_cache := generate_data_cache w1 |} in
       st_cache_data body w = (Ok df, w)) /\
    fst (app (fresh s1)) = Ok page /\
    fst (app (fresh s2)) = Ok page /\
    fst (app (snd (app (fresh s1)))) = Ok page /\
    data page = df /\
    (forall (body : M rng_state pd.DataFrame) (n : nat),
       exists o1 o2 p1 p2,
         st_cache_data_object generate_data
           {| world := fresh s1; allocated := n |} = (Ok o1, p1) /\
         st_cache_data_object body p1 = (Ok o2, p2) /\
         value o1 = df /\ value o2 = df /\
         identity o1 <> identity o2 /\
         world p2 = world p1).
Proof.
  exists the_dataset, the_page.
  pose proof st_cache_data_fresh as H.
  rewrite !H, !app_fresh. cbn [fst snd]. rewrite app_warm.
  do 7 (split; [reflexivity|]).
  intros body n.
  exists {| identity := n; value := the_dataset |},
         {| identity := S n; value := the_dataset |},
         {| world := warm (snd drawn_region); allocated := S n |},
         {| world := warm (snd drawn_region); allocated := S (S n) |}.
  unfold st_cache_data_object. cbn [world allocated]. rewrite H.
  cbn [fst snd world allocated identity value].
  repeat split. apply Nat.neq_succ_diag_r.
Qed.

(** *** Calls with a row count *)


(** *** The aggregates *)

Lemma the_keys_length cols : List.length (the_keys cols) = 100.
Proof. unfold the_keys, pd.row_keys. now rewrite length_map, length_seq. Qed.

Lemma the_groups_in (cols : list (list string)) (g : pd.key) :
  In g (the_groups cols) <-> In g (the_keys cols).
Proof. unfold the_groups. apply groups_in. Qed.

Lemma the_groups_nodup (cols : list (list string)) : NoDup (the_groups cols).
Proof. unfold the_groups. apply groups_nodup. Qed.

Lemma the_keys_pair_in (ys cs : list string) (g : pd.key) :
  In g (the_keys [ys; cs])
  <-> exists i, i < 100 /\ g = [nth i ys ""; nth i cs ""].
Proof. unfold the_keys. apply in_row_keys_pair. Qed.

Lemma sales_of_rows : map sales (rows the_dataset) = the_sales.
Proof.
  rewrite rows_the_dataset, map_map. cbn [sales the_row].
  symmetry. etransitivity; [apply (list_eq_map_nth the_sales 0%R)|].
  now rewrite the_sales_length.
Qed.

Lemma category_of_rows : map category (rows the_dataset) = the_category.
Proof.
  rewrite rows_the_dataset, map_map. cbn [category the_row].
  symmetry. etransitivity; [apply (list_eq_map_nth the_category "")|].
  now rewrite the_category_length.
Qed.

Lemma year_month_of_rows :
  map year_month (rows the_dataset) = the_year_month.
Proof.
  rewrite rows_the_dataset, map_map. cbn [year_month the_row].
  symmetry. etransitivity; [apply (list_eq_map_nth the_year_month "")|].
  now rewrite the_year_month_length.
Qed.

Lemma occurs_the_dataset ym k :
  occurs (rows the_dataset) ym k
  <-> exists i, i < 100 /\ nth i the_year_month "" = ym
                /\ nth i the_category "" = k.
Proof.
  unfold occurs. rewrite rows_the_dataset. split.
  - intros (r & Hin & Hym & Hk). apply in_map_iff in Hin.
    destruct Hin as (i & <- & Hi). apply in_seq in Hi.
    exists i. split; [lia|]. now split.
  - intros (i & Hi & Hym & Hk). exists (the_row i). split.
    + apply in_map, in_seq. lia.
    + now split.
Qed.

(** C6: the heat-map aggregate has at most (distinct year_months) x
    (distinct categories) rows, and exactly that many if and only if
    every such pair stands in some row of the table. *)
Theorem C6_heatmap_rows_bounded_by_product (w : World) :
  reachable w ->
  exists page w',
    app w = (Ok page, w') /\
    let rs := rows (data page) in
    let yms := distinct (map year_month rs) in
    let cats := distinct (map category rs) in
    pd.nrows (heatmap_data page) <= List.length yms * List.length cats /\
    (pd.nrows (heatmap_data page) = List.length yms * List.length cats <->
     forall ym k, In ym yms -> In k cats -> occurs rs ym k).
Proof.
  intros Hw. destruct (app_reachable Hw) as [w' Happ].
  exists the_page, w'. split; [exact Happ|].
  cbn zeta. cbn [data heatmap_data the_page].
  rewrite year_month_of_rows, category_of_rows.
  assert (Hn : pd.nrows the_heatmap_data
               = List.length (nodup pd.key_eq_dec
                                (pd.row_keys [the_year_month; the_category]
                                   100))).
  { unfold the_heatmap_data. cbn [pd.nrows pd.len].
    rewrite length_map. unfold the_groups, the_keys. apply groups_length. }
  rewrite Hn. unfold distinct.
  destruct (@distinct_pairs_count the_year_month the_category 100
              the_year_month_length the_category_length) as [Hle Hiff].
  split; [exact Hle|]. rewrite Hiff. split.
  - intros H ym k Hym Hk. apply occurs_the_dataset.
    exact (H ym k (proj1 (nodup_In string_dec _ _) Hym)
             (proj1 (nodup_In string_dec _ _) Hk)).
  - intros H y c Hy Hc. apply occurs_the_dataset.
    exact (H y c (proj2 (nodup_In string_dec _ _) Hy)
             (proj2 (nodup_In string_dec _ _) Hc)).
Qed.





(* ------------------------------------------------------------------ *)
(** *** The shape of the table and of the aggregates *)

(** X1: the generated table has the eight columns of the source, in the
    order they are written there (the two derived ones last), each with
    100 entries, whatever state the generator starts in. *)
Theorem generate_data_columns (s : rng_state) :
  exists df s',
    generate_data s = (Ok df, s') /\
    pd.columns df
    = ["date"; "sales"; "customers"; "avg_purchase"; "category"; "region";
       "revenue"; "year_month"] /\
    Forall (fun c => pd.len (snd c) = 100) df.
Proof.
  exists the_dataset, (snd drawn_region).
  split; [apply generate_data_run|]. split; [reflexivity|].
  unfold the_dataset.
  repeat (apply Forall_cons; [cbn [snd pd.len]|]); [..|apply Forall_nil].
  - apply the_date_length.
  - apply the_sales_length.
  - apply drawn_customers_length.
  - apply drawn_avg_purchase_length.
  - apply the_category_length.
  - apply the_region_length.
  - apply the_revenue_length.
  - apply the_year_month_length.
Qed.

(** X4: the [year_month] column does not depend on the random draws: it
    is 31 times 2023-01, 28 times 2023-02, 31 times 2023-03 and 10 times
    2023-04, in this order. *)
Theorem year_month_days_per_month (s : rng_state) :
  exists df s' yms,
    generate_data s = (Ok df, s') /\
    pd.getitem df "year_month" = Ok (pd.Object yms) /\
    yms = (repeat "2023-01" 31 ++ repeat "2023-02" 28
           ++ repeat "2023-03" 31 ++ repeat "2023-04" 10)%list.
Proof.
  exists the_dataset, (snd drawn_region), the_year_month.
  split; [apply generate_data_run|]. split; [reflexivity|].
  vm_compute. reflexivity.
Qed.

(** X5: the first run of a process reseeds the global generator: afterwards
    its state is the one reached from [seed(42)] by the five column
    draws, whatever it was before, and the table is cached.  A run that
    finds the table cached changes nothing at all. *)
Theorem app_effect_on_world (w : World) :
  reachable w ->
  (generate_data_cache w = None /\
   np_random (snd (app w)) = snd drawn_region /\
   generate_data_cache (snd (app w)) = Some the_dataset)
  \/
  (generate_data_cache w = Some the_dataset /\ snd (app w) = w).
Proof.
  intros Hw. destruct (reachable_inv Hw) as [[s ->] | [s ->]].
  - left. rewrite app_fresh. repeat split.
  - right. rewrite app_warm. split; reflexivity.
Qed.

(** X6: every run of the script in a session hands the same four tables to
    the charts, however the global generator was used in between. *)
Theorem app_same_page_on_every_run (w1 w2 : World) :
  reachable w1 -> reachable w2 ->
  exists page, fst (app w1) = Ok page /\ fst (app w2) = Ok page.
Proof.
  intros H1 H2.
  destruct (app_reachable H1) as [w1' E1], (app_reachable H2) as [w2' E2].
  exists the_page. now rewrite E1, E2.
Qed.

(** X7: the columns the charts read exist: [region_sales] has [region] and
    [sales], [category_avg] has [category], [sales], [customers] and
    [avg_purchase], [heatmap_data] has [year_month], [category] and
    [sales], the key columns first; within a table all columns have one
    length. *)
Theorem aggregates_columns (w : World) :
  reachable w ->
  exists page w',
    app w = (Ok page, w') /\
    pd.columns (region_sales page) = ["region"; "sales"] /\
    pd.columns (category_avg page)
    = ["category"; "sales"; "customers"; "avg_purchase"] /\
    pd.columns (heatmap_data page) = ["year_month"; "category"; "sales"] /\
    Forall (fun c => pd.len (snd c) = pd.nrows (region_sales page))
      (region_sales page) /\
    Forall (fun c => pd.len (snd c) = pd.nrows (category_avg page))
      (category_avg page) /\
    Forall (fun c => pd.len (snd c) = pd.nrows (heatmap_data page))
      (heatmap_data page).
Proof.
  intros Hw. destruct (app_reachable Hw) as [w' Happ].
  exists the_page, w'. split; [exact Happ|].
  cbn [region_sales category_avg heatmap_data the_page].
  split; [reflexivity|]. split; [reflexivity|]. split; [reflexivity|].
  unfold the_region_sales, the_category_avg, the_heatmap_data.
  cbn [pd.nrows pd.len].
  repeat split; repeat constructor; cbn [snd pd.len];
    now rewrite !length_map.
Qed.

(** X10: the heat-map sums add up to the sum of [sales] over all rows. *)
Theorem heatmap_sums_conserve_total_sales (w : World) :
  reachable w ->
  exists page w' sums,
    app w = (Ok page, w') /\
    pd.getitem (heatmap_data page) "sales" = Ok (pd.Float64 sums) /\
    pd.Rsum sums = pd.Rsum (map sales (rows (data page))).
Proof.
  intros Hw. destruct (app_reachable Hw) as [w' Happ].
  exists the_page, w'. eexists.
  split; [exact Happ|]. split; [reflexivity|].
  cbn [data the_page]. rewrite sales_of_rows.
  apply Rsum_group_sums.
  now rewrite the_keys_length, the_sales_length.
Qed.

(* ------------------------------------------------------------------ *)
(** *** Ranges of the fields and of the aggregates *)

Section Ranges.
Hypothesis laws : RandomStateLaws RS.

Lemma drawn_customers_range i :
  i < 100 -> (50 <= nth i (fst drawn_customers) 0 < 200)%Z.
Proof.
  intros Hi.
  assert (H : Forall (fun b => (50 <= b < 200)%Z) (fst drawn_customers)).
  { apply draw_Forall. intros s. apply (randint_in_range laws). lia. }
  rewrite Forall_forall in H. apply H, nth_In.
  now rewrite drawn_customers_length.
Qed.

Lemma the_sales_range i :
  i < 100 -> (50 <= nth i the_sales 0 < 550)%R.
Proof.
  intros Hi. rewrite nth_the_sales by exact Hi.
  pose proof (drawn_sales_base_range laws Hi) as [Hlo Hhi].
  apply IZR_le in Hlo.
  assert (Hhi' : (nth i (fst drawn_sales_base) 0 <= 499)%Z) by lia.
  apply IZR_le in Hhi'.
  pose proof (SIN_bound (10 * INR i / 99)) as [Hs1 Hs2].
  split; lra.
Qed.

Lemma label_of_index (a b c d : string) (i : Z) :
  (0 <= i < 4)%Z -> In (nth (Z.to_nat i) [a; b; c; d] "") [a; b; c; d].
Proof.
  intros Hi. apply nth_In. cbn [List.length]. lia.
Qed.

Lemma the_category_labels :
  Forall (fun c => In c ["A"; "B"; "C"; "D"]) the_category.
Proof.
  unfold the_category. apply Forall_map.
  assert (H : Forall (fun i => (0 <= i < 4)%Z) (fst drawn_category)).
  { apply draw_Forall. intros s. apply (randint_in_range laws). lia. }
  revert H. apply Forall_impl. intros i. apply label_of_index.
Qed.

Lemma the_region_labels :
  Forall (fun c => In c ["East"; "West"; "North"; "South"]) the_region.
Proof.
  unfold the_region. apply Forall_map.
  assert (H : Forall (fun i => (0 <= i < 4)%Z) (fst drawn_region)).
  { apply draw_Forall. intros s. apply (randint_in_range laws). lia. }
  revert H. apply Forall_impl. intros i. apply label_of_index.
Qed.

(** X2: every row of the generated table has its numeric fields in range:
    [customers] in [50, 200), [avg_purchase] in [10, 50), [sales] in
    [50, 550) and [revenue] in [500, 27500). *)
Theorem generate_data_numeric_ranges (s : rng_state) :
  exists df s',
    generate_data s = (Ok df, s') /\
    forall i r, row df i = Some r ->
      (50 <= customers r < 200)%Z /\
      (10 <= avg_purchase r < 50)%R /\
      (50 <= sales r < 550)%R /\
      (500 <= revenue r < 27500)%R.
Proof.
  exists the_dataset, (snd drawn_region).
  split; [apply generate_data_run|].
  intros i r H. pose proof (row_the_dataset_inv _ H) as Hi.
  rewrite (row_the_dataset_eq _ H).
  cbn [customers sales avg_purchase revenue the_row].
  rewrite nth_the_revenue by exact Hi.
  pose proof (drawn_customers_range Hi) as Hc.
  pose proof (drawn_avg_purchase_range laws Hi) as Ha.
  pose proof (the_sales_range Hi) as Hs.
  split; [exact Hc|]. split; [exact Ha|]. split; [exact Hs|]. nra.
Qed.

(** X3: every row of the generated table has its [category] among A, B, C,
    D and its [region] among East, West, North, South. *)
Theorem generate_data_labels (s : rng_state) :
  exists df s',
    generate_data s = (Ok df, s') /\
    forall i r, row df i = Some r ->
      In (category r) ["A"; "B"; "C"; "D"] /\
      In (region r) ["East"; "West"; "North"; "South"].
Proof.
  exists the_dataset, (snd drawn_region).
  split; [apply generate_data_run|].
  intros i r H. pose proof (row_the_dataset_inv _ H) as Hi.
  rewrite (row_the_dataset_eq _ H). cbn [category region the_row].
  pose proof the_category_labels as Hc. pose proof the_region_labels as Hr.
  rewrite Forall_forall in Hc, Hr. split.
  - apply Hc, nth_In. now rewrite the_category_length.
  - apply Hr, nth_In. now rewrite the_region_length.
Qed.
End Ranges.

Lemma the_groups_single (col : list string) (g : pd.key) :
  In g (the_groups [col]) <-> exists i, i < 100 /\ g = [nth i col ""].
Proof.
  unfold the_groups. rewrite groups_in. unfold the_keys.
  rewrite row_keys_single, in_map_iff. split.
  - intros (i & <- & Hi). apply in_seq in Hi. exists i. split; [lia|easy].
  - intros (i & Hi & ->). exists i. split; [easy|]. apply in_seq. lia.
Qed.

(** The labels of a single-key aggregate: each value of the key column
    once, and nothing else. *)
Lemma the_groups_labels (col : list string) :
  List.length col = 100 ->
  NoDup (map (fun k => nth 0 k "") (the_groups [col])) /\
  forall c, In c (map (fun k => nth 0 k "") (the_groups [col])) <-> In c col.
Proof.
  intros Hlen. split.
  - apply NoDup_map_NoDup_ForallPairs.
    + intros g g' Hg Hg' Heq. apply the_groups_single in Hg, Hg'.
      destruct Hg as (i & _ & ->), Hg' as (i' & _ & ->).
      cbn [nth] in Heq. now rewrite Heq.
    + unfold the_groups. apply groups_nodup.
  - intros c. rewrite in_map_iff. split.
    + intros (g & <- & Hg). apply the_groups_single in Hg.
      destruct Hg as (i & Hi & ->). cbn [nth]. apply nth_In. lia.
    + intros Hc. destruct (In_nth col c "" Hc) as (i & Hi & <-).
      exists [nth i col ""]. split; [reflexivity|].
      apply the_groups_single. exists i. split; [lia|reflexivity].
Qed.

Lemma region_of_rows : map region (rows the_dataset) = the_region.
Proof.
  rewrite rows_the_dataset, map_map. cbn [region the_row].
  symmetry. etransitivity; [apply (list_eq_map_nth the_region "")|].
  now rewrite the_region_length.
Qed.



Lemma the_year_month_labels :
  Forall (fun c => In c ["2023-01"; "2023-02"; "2023-03"; "2023-04"])
    the_year_month.
Proof.
  apply Forall_forall. intros c Hc.
  assert (H : forallb
                (fun c => existsb (String.eqb c)
                            ["2023-01"; "2023-02"; "2023-03"; "2023-04"])
                the_year_month = true) by (vm_compute; reflexivity).
  rewrite forallb_forall in H. specialize (H c Hc).
  apply existsb_exists in H. destruct H as (m & Hm & Heq).
  apply String.eqb_eq in Heq. now subst m.
Qed.

Lemma nodup_length_le (l L : list string) :
  Forall (fun c => In c L) l ->
  List.length (nodup string_dec l) <= List.length L.
Proof.
  intros H. apply NoDup_incl_length; [apply NoDup_nodup|].
  intros c Hc. apply nodup_In in Hc. rewrite Forall_forall in H. now apply H.
Qed.

Section AggregateRanges.
Hypothesis laws : RandomStateLaws RS.

Lemma the_sales_Forall : Forall (fun x => (50 <= x < 550)%R) the_sales.
Proof.
  apply Forall_forall. intros x Hx.
  destruct (In_nth the_sales x 0%R Hx) as (i & Hi & <-).
  apply (the_sales_range laws). now rewrite the_sales_length in Hi.
Qed.

Lemma the_customers_Forall :
  Forall (fun x => (50 <= x < 200)%R) (map IZR (fst drawn_customers)).
Proof.
  apply Forall_map, Forall_forall. intros x Hx.
  destruct (In_nth (fst drawn_customers) x 0%Z Hx) as (i & Hi & <-).
  rewrite drawn_customers_length in Hi.
  destruct (drawn_customers_range laws Hi) as [Hlo Hhi].
  split; [now apply IZR_le in Hlo | now apply IZR_lt in Hhi].
Qed.

Lemma the_avg_purchase_Forall :
  Forall (fun x => (10 <= x < 50)%R) (fst drawn_avg_purchase).
Proof.
  apply Forall_forall. intros x Hx.
  destruct (In_nth (fst drawn_avg_purchase) x 0%R Hx) as (i & Hi & <-).
  apply (drawn_avg_purchase_range laws).
  now rewrite drawn_avg_purchase_length in Hi.
Qed.

Lemma group_mean_range (cols : list (list string)) (v : list R) (a b : R) :
  List.length v = 100 ->
  Forall (fun x => (a <= x < b)%R) v ->
  Forall (fun m => (a <= m < b)%R)
    (map (fun k => pd.Rmean (pd.group_values (the_keys cols) v k))
       (the_groups cols)).
Proof.
  intros Hlen Hv. apply Forall_map, Forall_forall. intros g Hg.
  apply Rmean_bounds.
  - apply group_values_nonempty;
      [rewrite the_keys_length, Hlen; reflexivity|].
    exact (proj1 (the_groups_in cols g) Hg).
  - now apply group_values_Forall.
Qed.

Lemma group_sum_at_least (cols : list (list string)) (v : list R) (a b : R) :
  (0 <= a)%R ->
  List.length v = 100 ->
  Forall (fun x => (a <= x < b)%R) v ->
  Forall (fun m => (a <= m)%R)
    (map (fun k => pd.Rsum (pd.group_values (the_keys cols) v k))
       (the_groups cols)).
Proof.
  intros Ha Hlen Hv. apply Forall_map, Forall_forall. intros g Hg.
  assert (Hne : pd.group_values (the_keys cols) v g <> []).
  { apply group_values_nonempty;
      [rewrite the_keys_length, Hlen; reflexivity|].
    exact (proj1 (the_groups_in cols g) Hg). }
  destruct (Rsum_bounds Hne (@group_values_Forall _ _ (the_keys cols) v g Hv))
    as [Hlo _].
  assert (H1 : (1 <= INR (List.length
                             (pd.group_values (the_keys cols) v g)))%R).
  { destruct (pd.group_values (the_keys cols) v g); [congruence|].
    cbn [List.length]. rewrite S_INR. pose proof (pos_INR (List.length l)).
    lra. }
  nra.
Qed.

(** X8: the pie chart's table, [region_sales], has one row per region that
    occurs in the table, at most four, with distinct labels among East,
    West, North, South, and every sum it hands to the chart is at least
    50, hence positive. *)
Theorem region_sales_labels_and_sums (w : World) :
  reachable w ->
  exists page w' labels sums,
    app w = (Ok page, w') /\
    pd.getitem (region_sales page) "region" = Ok (pd.Object labels) /\
    pd.getitem (region_sales page) "sales" = Ok (pd.Float64 sums) /\
    NoDup labels /\
    List.length labels <= 4 /\
    List.length sums = List.length labels /\
    (forall k, In k labels <->
       exists r, In r (rows (data page)) /\ region r = k) /\
    incl labels ["East"; "West"; "North"; "South"] /\
    Forall (fun x => (50 <= x)%R) sums.
Proof.
  intros Hw. destruct (app_reachable Hw) as [w' Happ].
  exists the_page, w'. eexists. eexists.
  split; [exact Happ|]. split; [reflexivity|]. split; [reflexivity|].
  cbn [data the_page].
  destruct (@the_groups_labels the_region the_region_length) as [Hnd Hin].
  assert (Hincl : incl (map (fun k => nth 0 k "") (the_groups [the_region]))
                    ["East"; "West"; "North"; "South"]).
  { intros c Hc. apply Hin in Hc.
    pose proof (the_region_labels laws) as H. rewrite Forall_forall in H.
    now apply H. }
  split; [exact Hnd|].
  split; [exact (NoDup_incl_length Hnd Hincl)|].
  split; [now rewrite !length_map|].
  split; [|split; [exact Hincl|]].
  - intros k. rewrite Hin, <- region_of_rows, in_map_iff.
    split; intros (r & H1 & H2); exists r; now split.
  - apply (group_sum_at_least [the_region] (a := 50%R) (b := 550%R));
      [lra | apply the_sales_length | apply the_sales_Forall].
Qed.

(** X9: the bar chart's table: every mean in [category_avg] lies in the
    range of the values it averages: [sales] in [50, 550), [customers]
    in [50, 200), [avg_purchase] in [10, 50). *)
Theorem category_avg_means_in_range (w : World) :
  reachable w ->
  exists page w' ms mc ma,
    app w = (Ok page, w') /\
    pd.getitem (category_avg page) "sales" = Ok (pd.Float64 ms) /\
    pd.getitem (category_avg page) "customers" = Ok (pd.Float64 mc) /\
    pd.getitem (category_avg page) "avg_purchase" = Ok (pd.Float64 ma) /\
    Forall (fun m => (50 <= m < 550)%R) ms /\
    Forall (fun m => (50 <= m < 200)%R) mc /\
    Forall (fun m => (10 <= m < 50)%R) ma.
Proof.
  intros Hw. destruct (app_reachable Hw) as [w' Happ].
  exists the_page, w'. eexists. eexists. eexists.
  split; [exact Happ|].
  split; [reflexivity|]. split; [reflexivity|]. split; [reflexivity|].
  split; [|split].
  - apply group_mean_range; [apply the_sales_length|apply the_sales_Forall].
  - apply Forall_map, Forall_forall. intros g Hg. apply Rmean_bounds.
    + intros Hnil. apply map_eq_nil in Hnil. revert Hnil.
      apply group_values_nonempty;
        [rewrite the_keys_length, drawn_customers_length; reflexivity|].
      exact (proj1 (the_groups_in [the_category] g) Hg).
    + pose proof the_customers_Forall as H.
      rewrite Forall_map in H. apply Forall_map.
      now apply group_values_Forall.
  - apply group_mean_range;
      [apply drawn_avg_purchase_length | apply the_avg_purchase_Forall].
Qed.

(** X11: the heat map has at most 16 cells: its [year_month] labels are among
    the four months 2023-01 to 2023-04 and its [category] labels among
    A, B, C, D. *)
Theorem heatmap_data_at_most_16_rows (w : World) :
  reachable w ->
  exists page w' yms cats,
    app w = (Ok page, w') /\
    pd.getitem (heatmap_data page) "year_month" = Ok (pd.Object yms) /\
    pd.getitem (heatmap_data page) "category" = Ok (pd.Object cats) /\
    pd.nrows (heatmap_data page) <= 16 /\
    Forall (fun c => In c ["2023-01"; "2023-02"; "2023-03"; "2023-04"]) yms /\
    Forall (fun c => In c ["A"; "B"; "C"; "D"]) cats.
Proof.
  intros Hw. destruct (app_reachable Hw) as [w' Happ].
  exists the_page, w'. eexists. eexists.
  split; [exact Happ|]. split; [reflexivity|]. split; [reflexivity|].
  cbn [heatmap_data the_page].
  assert (Hkey : forall g,
            In g (the_groups [the_year_month; the_category]) ->
            exists i, i < 100 /\
              g = [nth i the_year_month ""; nth i the_category ""]).
  { intros g Hg.
    exact (proj1 (the_keys_pair_in the_year_month the_category g)
             (proj1 (the_groups_in _ g) Hg)). }
  split; [|split].
  - unfold the_heatmap_data. cbn [pd.nrows pd.len]. rewrite length_map.
    unfold the_groups, the_keys. rewrite groups_length.
    destruct (@distinct_pairs_count the_year_month the_category 100
                the_year_month_length the_category_length) as [Hle _].
    pose proof (@nodup_length_le _ _ the_year_month_labels) as Hy.
    pose proof (@nodup_length_le _ _ (the_category_labels laws)) as Hc.
    cbn [List.length] in Hy, Hc. nia.
  - apply Forall_map, Forall_forall. intros g Hg.
    destruct (Hkey g Hg) as (i & Hi & ->). cbn [nth].
    pose proof the_year_month_labels as H. rewrite Forall_forall in H.
    apply H, nth_In. rewrite the_year_month_length. exact Hi.
  - apply Forall_map, Forall_forall. intros g Hg.
    destruct (Hkey g Hg) as (i & Hi & ->). cbn [nth].
    pose proof (the_category_labels laws) as H. rewrite Forall_forall in H.
    apply H, nth_In. rewrite the_category_length. exact Hi.
Qed.
End AggregateRanges.

End Pipeline.

Lemma C1_witness :
  @reachable lcg (fresh lcg_start) /\
  exists page w',
    @app lcg (fresh lcg_start) = (Ok page, w') /\
    has_rows (data page) 100 /\
    revenue_derived (data page) /\
    recomputed_revenue (data page) = pd.getitem (data page) "revenue" /\
    fst (app w') = Ok page.
Proof.
  split.
  - apply reachable_fresh.
  - apply (@C1_revenue_is_sales_times_avg_purchase lcg (fresh lcg_start)).
    apply reachable_fresh.
Defined.

Lemma lcg_laws : RandomStateLaws lcg.
Proof.
  split.
  - intros low high s H. unfold rng_randint, lcg. cbn [fst].
    pose proof (Z.mod_pos_bound (lcg_step s) (high - low) ltac:(lia)). lia.
  - intros s. unfold rng_random_sample, lcg. cbn [fst].
    pose proof (Z.mod_pos_bound (lcg_step s) 1000 ltac:(lia)) as [H0 H1].
    apply IZR_le in H0. apply IZR_lt in H1. lra.
Qed.

Lemma C10_witness :
  RandomStateLaws lcg /\
  exists df s',
    @generate_data lcg lcg_start = (Ok df, s') /\
    has_rows df 100 /\
    forall i r, row df i = Some r ->
      (50 <= sales r)%R /\ (10 <= avg_purchase r)%R /\ (0 < revenue r)%R.
Proof.
  split.
  - exact lcg_laws.
  - exact (@C10_revenue_is_positive lcg lcg_laws lcg_start).
Defined.

Lemma C3_witness :
  RandomStateLaws lcg /\
  exists df s',
    @generate_data lcg lcg_start = (Ok df, s') /\
    forall i, i < 100 ->
      exists b r,
        nth_error (fst (@drawn_sales_base lcg)) i = Some b /\
        (100 <= b < 500)%Z /\
        row df i = Some r /\
        sales r = (IZR b + 50 * sin (10 * INR i / 99))%R.
Proof.
  split.
  - exact lcg_laws.
  - exact (@C3_sales_is_base_plus_sine_wave lcg lcg_laws lcg_start).
Defined.

(** C3 (as stated) fails: no scaling of [sin (2 pi i / N * k)] with
    [N = 100] and [k = 10] gives the sales column.  At row 5 that sine
    is [sin pi = 0], while the code adds [50 * sin (50 / 99)], which is
    not zero. *)
Lemma C3_counterexample :
  ~ (exists c : R,
       forall df i r,
         fst (@generate_data lcg lcg_start) = Ok df ->
         row df i = Some r ->
         sales r
         = (IZR (nth i (fst (@drawn_sales_base lcg)) 0%Z)
            + c * sin (2 * PI * INR i / 100 * 10))%R).
Proof.
  intros [c H].
  specialize (H (@the_dataset lcg) 5 (@the_row lcg 5)).
  rewrite generate_data_run in H. specialize (H eq_refl).
  assert (H5 : 5 < 100) by lia.
  specialize (H (row_the_dataset (RS := lcg) H5)).
  cbn [sales the_row] in H.
  rewrite nth_the_sales in H by lia.
  rewrite (INR_IZR_INZ 5) in H. change (Z.of_nat 5) with 5%Z in H.
  replace (2 * PI * 5 / 100 * 10)%R with PI in H by field.
  rewrite sin_PI in H.
  assert (Hpos : (0 < sin (10 * 5 / 99))%R).
  { apply sin_gt_0; [lra|]. pose proof PI2_1. lra. }
  lra.
Qed.


(** C7 (as stated) fails: the second call of a session does not return
    the object the first call returned. *)
Lemma C7_counterexample :
  ~ (forall o1 o2 p1 p2,
       @st_cache_data_object mt19937 generate_data
         {| world := fresh mt19937_start; allocated := 0 |} = (Ok o1, p1) ->
       st_cache_data_object generate_data p1 = (Ok o2, p2) ->
       o2 = o1).
Proof.
  intros H.
  specialize (H {| identity := 0; value := @the_dataset mt19937 |}
                {| identity := 1; value := @the_dataset mt19937 |}
                {| world := warm (snd (@drawn_region mt19937));
                   allocated := 1 |}
                {| world := warm (snd (@drawn_region mt19937));
                   allocated := 2 |}).
  assert (E : {| identity := 1; value := @the_dataset mt19937 |}
              = {| identity := 0; value := @the_dataset mt19937 |}).
  { apply H.
    - unfold st_cache_data_object. cbn [world allocated].
      rewrite st_cache_data_fresh. reflexivity.
    - reflexivity. }
  apply (f_equal (@identity pd.DataFrame)) in E. discriminate E.
Qed.




Lemma C6_witness :
  @reachable lcg (fresh lcg_start) /\
  exists page w',
    @app lcg (fresh lcg_start) = (Ok page, w') /\
    let rs := rows (data page) in
    let yms := distinct (map year_month rs) in
    let cats := distinct (map category rs) in
    pd.nrows (heatmap_data page) <= List.length yms * List.length cats /\
    (pd.nrows (heatmap_data page) = List.length yms * List.length cats <->
     forall ym k, In ym yms -> In k cats -> occurs rs ym k).
Proof.
  split.
  - apply reachable_fresh.
  - apply (@C6_heatmap_rows_bounded_by_product lcg (fresh lcg_start)).
    apply reachable_fresh.
Defined.

(* ------------------------------------------------------------------ *)
(** Runs of the further properties on the concrete stream. *)

Local Open Scope string_scope.

Lemma app_effect_on_world_witness :
  @reachable lcg (fresh lcg_start) /\
  ((generate_data_cache (@fresh lcg lcg_start) = None /\
    np_random (snd (@app lcg (fresh lcg_start))) = snd (@drawn_region lcg) /\
    generate_data_cache (snd (@app lcg (fresh lcg_start)))
    = Some (@the_dataset lcg))
   \/
   (generate_data_cache (@fresh lcg lcg_start) = Some (@the_dataset lcg) /\
    snd (@app lcg (fresh lcg_start)) = fresh lcg_start)).
Proof.
  split.
  - apply reachable_fresh.
  - apply (@app_effect_on_world lcg (fresh lcg_start)).
    apply reachable_fresh.
Defined.

Lemma app_same_page_on_every_run_witness :
  @reachable lcg (fresh lcg_start) /\
  @reachable lcg (snd (app (fresh lcg_start))) /\
  exists page,
    fst (@app lcg (fresh lcg_start)) = Ok page /\
    fst (@app lcg (snd (app (fresh lcg_start)))) = Ok page.
Proof.
  split; [apply reachable_fresh|].
  split; [apply reachable_run, reachable_fresh|].
  apply (@app_same_page_on_every_run lcg (fresh lcg_start)
           (snd (app (fresh lcg_start)))).
  - apply reachable_fresh.
  - apply reachable_run, reachable_fresh.
Defined.

Lemma aggregates_columns_witness :
  @reachable lcg (fresh lcg_start) /\
  exists page w',
    @app lcg (fresh lcg_start) = (Ok page, w') /\
    pd.columns (region_sales page) = ["region"; "sales"] /\
    pd.columns (category_avg page)
    = ["category"; "sales"; "customers"; "avg_purchase"] /\
    pd.columns (heatmap_data page) = ["year_month"; "category"; "sales"] /\
    Forall (fun c => pd.len (snd c) = pd.nrows (region_sales page))
      (region_sales page) /\
    Forall (fun c => pd.len (snd c) = pd.nrows (category_avg page))
      (category_avg page) /\
    Forall (fun c => pd.len (snd c) = pd.nrows (heatmap_data page))
      (heatmap_data page).
Proof.
  split.
  - apply reachable_fresh.
  - apply (@aggregates_columns lcg (fresh lcg_start)).
    apply reachable_fresh.
Defined.

Lemma heatmap_sums_conserve_total_sales_witness :
  @reachable lcg (fresh lcg_start) /\
  exists page w' sums,
    @app lcg (fresh lcg_start) = (Ok page, w') /\
    pd.getitem (heatmap_data page) "sales" = Ok (pd.Float64 sums) /\
    pd.Rsum sums = pd.Rsum (map sales (rows (data page))).
Proof.
  split.
  - apply reachable_fresh.
  - apply (@heatmap_sums_conserve_total_sales lcg (fresh lcg_start)).
    apply reachable_fresh.
Defined.

Lemma generate_data_numeric_ranges_witness :
  RandomStateLaws lcg /\
  exists df s',
    @generate_data lcg lcg_start = (Ok df, s') /\
    forall i r, row df i = Some r ->
      (50 <= customers r < 200)%Z /\
      (10 <= avg_purchase r < 50)%R /\
      (50 <= sales r < 550)%R /\
      (500 <= revenue r < 27500)%R.
Proof.
  split.
  - exact lcg_laws.
  - exact (@generate_data_numeric_ranges lcg lcg_laws lcg_start).
Defined.

Lemma generate_data_labels_witness :
  RandomStateLaws lcg /\
  exists df s',
    @generate_data lcg lcg_start = (Ok df, s') /\
    forall i r, row df i = Some r ->
      In (category r) ["A"; "B"; "C"; "D"] /\
      In (region r) ["East"; "West"; "North"; "South"].
Proof.
  split.
  - exact lcg_laws.
  - exact (@generate_data_labels lcg lcg_laws lcg_start).
Defined.

Lemma region_sales_labels_and_sums_witness :
  RandomStateLaws lcg /\
  @reachable lcg (fresh lcg_start) /\
  exists page w' labels sums,
    @app lcg (fresh lcg_start) = (Ok page, w') /\
    pd.getitem (region_sales page) "region" = Ok (pd.Object labels) /\
    pd.getitem (region_sales page) "sales" = Ok (pd.Float64 sums) /\
    NoDup labels /\
    List.length labels <= 4 /\
    List.length sums = List.length labels /\
    (forall k, In k labels <->
       exists r, In r (rows (data page)) /\ region r = k) /\
    incl labels ["East"; "West"; "North"; "South"] /\
    Forall (fun x => (50 <= x)%R) sums.
Proof.
  split; [exact lcg_laws|]. split; [apply reachable_fresh|].
  apply (@region_sales_labels_and_sums lcg lcg_laws (fresh lcg_start)).
  apply reachable_fresh.
Defined.

Lemma category_avg_means_in_range_witness :
  RandomStateLaws lcg /\
  @reachable lcg (fresh lcg_start) /\
  exists page w' ms mc ma,
    @app lcg (fresh lcg_start) = (Ok page, w') /\
    pd.getitem (category_avg page) "sales" = Ok (pd.Float64 ms) /\
    pd.getitem (category_avg page) "customers" = Ok (pd.Float64 mc) /\
    pd.getitem (category_avg page) "avg_purchase" = Ok (pd.Float64 ma) /\
    Forall (fun m => (50 <= m < 550)%R) ms /\
    Forall (fun m => (50 <= m < 200)%R) mc /\
    Forall (fun m => (10 <= m < 50)%R) ma.
Proof.
  split; [exact lcg_laws|]. split; [apply reachable_fresh|].
  apply (@category_avg_means_in_range lcg lcg_laws (fresh lcg_start)).
  apply reachable_fresh.
Defined.

Lemma heatmap_data_at_most_16_rows_witness :
  RandomStateLaws lcg /\
  @reachable lcg (fresh lcg_start) /\
  exists page w' yms cats,
    @app lcg (fresh lcg_start) = (Ok page, w') /\
    pd.getitem (heatmap_data page) "year_month" = Ok (pd.Object yms) /\
    pd.getitem (heatmap_data page) "category" = Ok (pd.Object cats) /\
    pd.nrows (heatmap_data page) <= 16 /\
    Forall (fun c => In c ["2023-01"; "2023-02"; "2023-03"; "2023-04"]) yms /\
    Forall (fun c => In c ["A"; "B"; "C"; "D"]) cats.
Proof.
  split; [exact lcg_laws|]. split; [apply reachable_fresh|].
  apply (@heatmap_data_at_most_16_rows lcg lcg_laws (fresh lcg_start)).
  apply reachable_fresh.
Defined.
